(** * stale-pr-bot: a shallow embedding of [main.go] and its policy properties

    The program is one Go file.  It reads its configuration from the
    environment and the command line, lists the open pull requests of one
    repository and, for each of them, decides between doing nothing,
    removing the [stale-warning] label, warning the author, and closing the
    pull request.

    The embedding follows the source function by function.  The Go standard
    library and the two remote collaborators (the GitHub API and the SMTP
    server) are outside the repository: the library functions the program
    calls are modelled from their documented behaviour in the modules
    [GoStrings], [Strconv] and [GoTime]; the collaborators answer through a
    [World] record, so every statement below holds for every behaviour of
    the remote side. *)

From Stdlib Require Import ZArith List Bool Lia.
From Stdlib Require Import Ascii String DecimalString DecimalPos DecimalZ.
Import ListNotations.

Local Open Scope string_scope.
Local Open Scope list_scope.
Local Open Scope Z_scope.

(** ** Go's [strings] package *)

Module GoStrings.

(** A Go string is a sequence of bytes; [string] is a list of 8-bit
    [ascii] values, so the two agree. *)
Definition byte (c : ascii) : N := N_of_ascii c.

(** [utf8.RuneSelf]: bytes below it are single-byte (ASCII) runes. *)
Definition RuneSelf : N := 128.

Definition isUpper (c : ascii) : bool :=
  (N.leb 65 (byte c) && N.leb (byte c) 90)%bool.

(** [c += 'a' - 'A'] on a byte that is an upper-case letter. *)
Definition lowerByte (c : ascii) : ascii :=
  if isUpper c then ascii_of_N (byte c + 32) else c.

Fixpoint isASCII (s : string) : bool :=
  match s with
  | EmptyString => true
  | String c s' => (N.ltb (byte c) RuneSelf && isASCII s')%bool
  end.

Fixpoint mapBytes (f : ascii -> ascii) (s : string) : string :=
  match s with
  | EmptyString => EmptyString
  | String c s' => String (f c) (mapBytes f s')
  end.

Section Unicode.
(** The Unicode tables of Go's [unicode] package are not part of the
    repository.  [unicodeToLower] stands for [Map(unicode.ToLower, s)]
    and [unicodeEqualFold] for the rune loop of [EqualFold] (the code
    under its [hasUnicode] label), applied to the two remainders. *)
Variable unicodeToLower : string -> string.
Variable unicodeEqualFold : string -> string -> bool.

(** [strings.ToLower]: the ASCII-only path rewrites the upper-case
    letters; any byte at or above [RuneSelf] sends the whole string to
    the Unicode mapping. *)
Definition ToLower (s : string) : string :=
  if isASCII s then mapBytes lowerByte s else unicodeToLower s.

(** [strings.EqualFold]: the byte loop of the ASCII fast path.  At the
    first position where either byte is not ASCII the remainders go to
    the rune loop; when one string is exhausted the result is
    [len(s) == len(t)]. *)
Fixpoint EqualFold (s t : string) : bool :=
  match s, t with
  | String sr s', String tr t' =>
      if N.leb RuneSelf (N.lor (byte sr) (byte tr)) then unicodeEqualFold s t
      else if N.eqb (byte tr) (byte sr) then EqualFold s' t'
      else
        let lo := N.min (byte sr) (byte tr) in
        let hi := N.max (byte sr) (byte tr) in
        if (N.leb 65 lo && N.leb lo 90 && N.eqb hi (lo + 97 - 65))%bool
        then EqualFold s' t'
        else false
  | EmptyString, EmptyString => true
  | _, _ => false
  end.
End Unicode.

End GoStrings.

(** ** Go's [strconv.Atoi] *)

Module Strconv.

(** The range of Go's [int] on the 64-bit platforms the bot is built for. *)
Definition minInt : Z := - 2 ^ 63.
Definition maxInt : Z := 2 ^ 63 - 1.

Definition digit (c : ascii) : option Z :=
  let n := Z.of_N (N_of_ascii c) in
  if (48 <=? n) && (n <=? 57) then Some (n - 48) else None.

(** The digit loop: [n = n*10 + int(ch)], a syntax error at the first
    byte that is not a decimal digit. *)
Fixpoint digits (acc : Z) (s : string) : option Z :=
  match s with
  | EmptyString => Some acc
  | String c s' =>
      match digit c with
      | Some d => digits (acc * 10 + d) s'
      | None => None
      end
  end.

(** [Atoi]: an optional sign, then at least one decimal digit and nothing
    else; a value outside [int] is a range error.  [None] is Go's
    [err != nil] (the fast path and [ParseInt(s, 10, 0)] agree on which
    inputs are errors; the program never looks at the error itself). *)
Definition Atoi (s : string) : option Z :=
  match s with
  | EmptyString => None
  | String c rest =>
      let neg := Ascii.eqb c "-" in
      let body := if neg || Ascii.eqb c "+" then rest else s in
      match body with
      | EmptyString => None
      | _ =>
          match digits 0 body with
          | Some n =>
              let v := if neg then - n else n in
              if (minInt <=? v) && (v <=? maxInt) then Some v else None
          | None => None
          end
      end
  end.

End Strconv.

(** ** Go's [time] package *)

Module GoTime.

(** An instant, in nanoseconds since Go's zero [Time] (January 1, year 1,
    UTC).  Go stores seconds in an [int64], so every instant the program
    meets (the wall clock, RFC 3339 timestamps, either of them moved by
    one [Duration]) is represented exactly. *)
Definition Time := Z.

(** A [Duration] is an [int64] count of nanoseconds. *)
Definition Duration := Z.

Definition minDuration : Duration := - 2 ^ 63.
Definition maxDuration : Duration := 2 ^ 63 - 1.

(** Two's-complement wrap-around of [int64] arithmetic. *)
Definition wrap64 (z : Z) : Z := (z + 2 ^ 63) mod 2 ^ 64 - 2 ^ 63.

Definition Hour : Duration := 3600000000000.

Definition mul (a b : Duration) : Duration := wrap64 (a * b).
Definition neg (a : Duration) : Duration := wrap64 (- a).

(** [t.Add(d)]. *)
Definition Add (t : Time) (d : Duration) : Time := t + d.

(** [t.Before(u)]. *)
Definition Before (t u : Time) : bool := t <? u.

(** [t.Sub(u)]: the difference, or the largest (smallest) [Duration] when
    it does not fit. *)
Definition Sub (t u : Time) : Duration :=
  if maxDuration <? t - u then maxDuration
  else if t - u <? minDuration then minDuration
  else t - u.

(** [time.Duration(days) * 24 * time.Hour], as both thresholds are
    converted in [main]. *)
Definition daysDuration (days : Z) : Duration :=
  mul (mul (wrap64 days) 24) Hour.

End GoTime.

(** ** Data model *)

(** A Go [error], as [%v] prints it. *)
Definition error := string.

(** [%d] of [fmt]. *)
Definition fmtd (n : Z) : string := NilZero.string_of_int (Z.to_int n).

(** [fmt.Sprintf]: the pieces of the format, verbs already replaced. *)
Definition Sprintf (pieces : list string) : string := String.concat "" pieces.

Definition newline : string := String (ascii_of_nat 10) EmptyString.

(** The fields of go-github's [User], [Label] and [PullRequest] the program
    reads.  They are pointers in Go; [None] is [nil] and the [Get...]
    accessors return the zero value for it.  A [nil] entry of [pr.Labels]
    reads, through [GetName], like a label without a name. *)
Record User := mkUser {
  Login : option string;
  Email : option string
}.

Record Label := mkLabel {
  Name : option string
}.

Record PullRequest := mkPR {
  Number : option Z;
  Title : option string;
  UpdatedAt : option GoTime.Time;
  PRUser : option User;
  Labels : list Label;
  HTMLURL : option string
}.

Definition orEmpty (o : option string) : string :=
  match o with Some s => s | None => "" end.

Definition GetLogin (u : option User) : string :=
  match u with Some u => orEmpty (Login u) | None => "" end.

Definition GetEmail (u : option User) : string :=
  match u with Some u => orEmpty (Email u) | None => "" end.

Definition GetName (l : Label) : string := orEmpty (Name l).

Definition GetNumber (pr : PullRequest) : Z :=
  match Number pr with Some n => n | None => 0 end.

Definition GetTitle (pr : PullRequest) : string := orEmpty (Title pr).

Definition GetHTMLURL (pr : PullRequest) : string := orEmpty (HTMLURL pr).

Definition GetUser (pr : PullRequest) : option User := PRUser pr.

(** [pr.GetUpdatedAt().Time]: the zero [Time] when the field is [nil]. *)
Definition GetUpdatedAt (pr : PullRequest) : GoTime.Time :=
  match UpdatedAt pr with Some t => t | None => 0 end.

(** ** Configuration: environment, flags, sanity check *)

(** The values of the command-line flags after [flag.Parse]. *)
Record Config := mkConfig {
  githubToken : string;
  githubBaseURL : string;
  owner : string;
  repo : string;
  daysInactive : Z;
  warningPeriod : Z;
  smtpServer : string;
  smtpPort : Z;
  smtpUser : string;
  smtpPassword : string;
  emailDomain : string
}.

(** The flags given on the command line, as [flag.Parse] read them; a flag
    that is not given keeps its default. *)
Record Flags := mkFlags {
  flagGithubToken : option string;
  flagGithubBaseURL : option string;
  flagOwner : option string;
  flagRepo : option string;
  flagDaysInactive : option Z;
  flagWarningPeriod : option Z;
  flagSmtpServer : option string;
  flagSmtpPort : option Z;
  flagSmtpUser : option string;
  flagSmtpPassword : option string;
  flagEmailDomain : option string
}.

Definition noFlags : Flags :=
  mkFlags None None None None None None None None None None None.

Section Configuration.
(** [os.Getenv], after [godotenv.Load]: the empty string for a variable
    that is not set. *)
Variable Getenv : string -> string.

(** The integer defaults of [main]:
    [if v := os.Getenv(name); v != "" { if n, err := strconv.Atoi(v); err == nil { d = n } }]. *)
Definition envInt (name : string) (d : Z) : Z :=
  let v := Getenv name in
  if String.eqb v "" then d
  else match Strconv.Atoi v with
       | Some n => n
       | None => d
       end.

Definition defaultDaysInactive : Z := envInt "DAYS_INACTIVE" 0.
Definition defaultWarningPeriod : Z := envInt "WARNING_PERIOD" 0.
Definition defaultSMTPPort : Z := envInt "SMTP_PORT" 587.

Definition defaultEmailDomain : string :=
  if String.eqb (Getenv "EMAIL_DOMAIN") "" then "example.com"
  else Getenv "EMAIL_DOMAIN".

Definition flagOr {A} (given : option A) (d : A) : A :=
  match given with Some v => v | None => d end.

Definition parseFlags (f : Flags) : Config :=
  {| githubToken := flagOr (flagGithubToken f) (Getenv "GITHUB_TOKEN");
     githubBaseURL := flagOr (flagGithubBaseURL f) (Getenv "GITHUB_BASE_URL");
     owner := flagOr (flagOwner f) (Getenv "GITHUB_OWNER");
     repo := flagOr (flagRepo f) (Getenv "GITHUB_REPO");
     daysInactive := flagOr (flagDaysInactive f) defaultDaysInactive;
     warningPeriod := flagOr (flagWarningPeriod f) defaultWarningPeriod;
     smtpServer := flagOr (flagSmtpServer f) (Getenv "SMTP_SERVER");
     smtpPort := flagOr (flagSmtpPort f) defaultSMTPPort;
     smtpUser := flagOr (flagSmtpUser f) (Getenv "SMTP_USER");
     smtpPassword := flagOr (flagSmtpPassword f) (Getenv "SMTP_PASSWORD");
     emailDomain := flagOr (flagEmailDomain f) defaultEmailDomain |}.
End Configuration.

(** The condition of the "simple sanity check" of [main]: [true] when the
    program calls [log.Fatal]. *)
Definition missingParameter (c : Config) : bool :=
  String.eqb (githubToken c) "" || String.eqb (githubBaseURL c) ""
  || String.eqb (owner c) "" || String.eqb (repo c) ""
  || (daysInactive c <=? 0) || (warningPeriod c <=? 0)
  || String.eqb (smtpServer c) "" || String.eqb (smtpUser c) ""
  || String.eqb (smtpPassword c) "".

(** ** The remote side *)

(** One blocking call to a collaborator.  [SendEmail] is the whole SMTP
    dialogue of [sendEmail] (dial, STARTTLS when offered, authenticate,
    sender, recipient, data) taken as one step: [sendEmail] returns the
    first error of the dialogue, wrapped, and its callers only test the
    result against [nil].  What the dialogue itself prints (the note that
    the server does not offer STARTTLS) is not recorded. *)
Inductive Op :=
| UsersGet
| PullRequestsList (owner repo : string) (page perPage : Z)
| PullRequestsEdit (owner repo : string) (number : Z) (state : string)
| IssuesAddLabels (owner repo : string) (number : Z) (labels : list string)
| IssuesRemoveLabel (owner repo : string) (number : Z) (label : string)
| SendEmail (toEmail subject body server : string) (port : Z)
            (user password : string).

(** A call that was made, with the error it returned ([None] is [nil]). *)
Record Call := mkCall {
  callOp : Op;
  callErr : option error
}.

(** Everything the program does not decide: the wall clock, [url.Parse],
    and the answers of the GitHub API and of the mail server, which may
    depend on all the calls made before. *)
Record World := mkWorld {
  wallClock : nat -> GoTime.Time;
  urlParse : string -> option error;
  answer : list Call -> Op -> option error;
  authenticatedLogin : list Call -> string;
  listedPage : list Call -> Z -> list PullRequest * Z
}.

(** The state the program threads: its one global variable, what it has
    printed, the remote calls it has made, and how often it has read the
    clock. *)
Record State := mkState {
  fallbackEmailDomain : string;
  stdout : list string;
  calls : list Call;
  clockReads : nat
}.

Definition initialState : State := mkState "" [] [] 0.

Definition M (A : Type) : Type := State -> A * State.

Definition ret {A} (a : A) : M A := fun s => (a, s).

Definition bind {A B} (m : M A) (k : A -> M B) : M B :=
  fun s => let (a, s') := m s in k a s'.

Notation "x <- m ;; k" := (bind m (fun x => k))
  (at level 61, m at next level, right associativity).
Notation "m ;;; k" := (bind m (fun _ => k))
  (at level 61, right associativity).

(** [fmt.Printf] and [fmt.Println]: one entry of [stdout] per call. *)
Definition Printf (pieces : list string) : M unit :=
  fun s => (tt, mkState (fallbackEmailDomain s) (stdout s ++ [Sprintf pieces])
                        (calls s) (clockReads s)).

Definition setFallbackEmailDomain (d : string) : M unit :=
  fun s => (tt, mkState d (stdout s) (calls s) (clockReads s)).

Definition getFallbackEmailDomain : M string :=
  fun s => (fallbackEmailDomain s, s).

(** How [main] ends: it returns, or [log.Fatal] prints a message and exits
    with status 1.  [Fetching] is the pagination loop of [getOpenPRs] still
    running when the fuel given to the model is used up. *)
Inductive Exit :=
| Returned
| Fatal (message : string)
| Fetching.

Fixpoint forEach {A} (l : list A) (body : A -> M unit) : M unit :=
  match l with
  | [] => ret tt
  | x :: l' => body x ;;; forEach l' body
  end.

Definition rule : string :=
  "-------------------------------------------------------------".

(** ** The program *)

Section Bot.
Variable unicodeToLower : string -> string.
Variable unicodeEqualFold : string -> string -> bool.
Variable W : World.

(** A call to a collaborator: the world answers, the call is recorded. *)
Definition remote (o : Op) : M (option error) :=
  fun s =>
    let r := answer W (calls s) o in
    (r, mkState (fallbackEmailDomain s) (stdout s)
                (calls s ++ [mkCall o r]) (clockReads s)).

(** [time.Now()]. *)
Definition timeNow : M GoTime.Time :=
  fun s =>
    (wallClock W (clockReads s),
     mkState (fallbackEmailDomain s) (stdout s) (calls s) (S (clockReads s))).

(** [client.Users.Get(ctx, "")]: the authenticated user's login. *)
Definition usersGet : M (error + string) :=
  fun s =>
    let before := calls s in
    let (err, s') := remote UsersGet s in
    (match err with
     | Some e => inl e
     | None => inr (authenticatedLogin W before)
     end, s').

Definition testGitHubConnection : M (option error) :=
  r <- usersGet ;;
  match r with
  | inl e => ret (Some (Sprintf ["failed to retrieve authenticated user: "; e]))
  | inr login =>
      Printf ["Authenticated as GitHub user: "; login; newline] ;;;
      ret None
  end.

(** [getGithubClient]: the client itself carries no behaviour of its own;
    only the two [url.Parse] calls can fail. *)
Definition getGithubClient (token baseURL : string) : option error :=
  match urlParse W baseURL with
  | Some e => Some (Sprintf ["invalid base URL: "; e])
  | None =>
      match urlParse W (baseURL ++ "upload/")%string with
      | Some e => Some (Sprintf ["invalid upload URL: "; e])
      | None => None
      end
  end.

(** [client.PullRequests.List]: one page and the number of the next. *)
Definition pullRequestsList (owner repo : string) (page : Z)
  : M (error + list PullRequest * Z) :=
  fun s =>
    let before := calls s in
    let (err, s') := remote (PullRequestsList owner repo page 100) s in
    (match err with
     | Some e => inl e
     | None => inr (listedPage W before page)
     end, s').

(** [getOpenPRs]: the [for] loop over the pages; [None] when the fuel
    runs out before a page without successor is reached. *)
Fixpoint getOpenPRsFrom (fuel : nat) (owner repo : string) (page : Z)
         (allPRs : list PullRequest)
  : M (option (error + list PullRequest)) :=
  match fuel with
  | O => ret None
  | S fuel' =>
      Printf ["Fetching pull requests..."; newline] ;;;
      r <- pullRequestsList owner repo page ;;
      match r with
      | inl e => ret (Some (inl (Sprintf ["error listing PRs: "; e])))
      | inr (prs, nextPage) =>
          let allPRs := allPRs ++ prs in
          if nextPage =? 0 then
            Printf ["Total open PRs fetched: ";
                    fmtd (Z.of_nat (List.length allPRs)); newline] ;;;
            ret (Some (inr allPRs))
          else getOpenPRsFrom fuel' owner repo nextPage allPRs
      end
  end.

Definition getOpenPRs (fuel : nat) (owner repo : string)
  : M (option (error + list PullRequest)) :=
  getOpenPRsFrom fuel owner repo 0 [].

Definition hasLabel (pr : PullRequest) (labelName : string) : bool :=
  existsb (fun label => GoStrings.EqualFold unicodeEqualFold (GetName label) labelName)
          (Labels pr).

(** [time.Since(pr.GetUpdatedAt().Time)]: the timestamp comes from JSON
    and has no monotonic reading, so this is [time.Now().Sub(t)]. *)
Definition timeSinceLabel (pr : PullRequest) : M GoTime.Duration :=
  now <- timeNow ;;
  ret (GoTime.Sub now (GetUpdatedAt pr)).

Definition closePR (owner repo : string) (prNumber : Z) : M (option error) :=
  remote (PullRequestsEdit owner repo prNumber "closed").

Definition addWarningLabel (owner repo : string) (prNumber : Z)
  : M (option error) :=
  remote (IssuesAddLabels owner repo prNumber ["stale-warning"]).

Definition removeLabel (owner repo : string) (prNumber : Z) (labelName : string)
  : M (option error) :=
  remote (IssuesRemoveLabel owner repo prNumber labelName).

Definition sendEmail (toEmail subject body server : string) (port : Z)
           (user password : string) : M (option error) :=
  remote (SendEmail toEmail subject body server port user password).

Definition getEmailFromGitHubUser (user : option User) : M string :=
  let email := GetEmail user in
  if negb (String.eqb email "") then
    Printf ["Found public email '"; email; "' for user '"; GetLogin user;
            "'."; newline] ;;;
    ret email
  else
    domain <- getFallbackEmailDomain ;;
    let username := GoStrings.ToLower unicodeToLower (GetLogin user) in
    let email := Sprintf [username; "@"; domain] in
    Printf ["Constructed email '"; email; "' for user '"; GetLogin user;
            "'."; newline] ;;;
    ret email.

Definition warningSubject (pr : PullRequest) : string :=
  Sprintf ["Your pull request #"; fmtd (GetNumber pr); " is stale"].

Definition warningBody (pr : PullRequest) : string :=
  Sprintf ["Hello "; GetLogin (GetUser pr); ",

Your pull request #"; fmtd (GetNumber pr); " has been inactive for a while. Please update it within the next few days, or it may be closed.

PR Link: "; GetHTMLURL pr; "

Best regards,
The Bot"].

Definition closureSubject (pr : PullRequest) : string :=
  Sprintf ["Your pull request #"; fmtd (GetNumber pr); " has been closed"].

Definition closureBody (pr : PullRequest) : string :=
  Sprintf ["Hello "; GetLogin (GetUser pr); ",

Your pull request #"; fmtd (GetNumber pr); " has been closed due to inactivity.

PR Link: "; GetHTMLURL pr; "

If you wish to continue working, please feel free to reopen it or submit a new pull request.

Best regards,
The Bot"].

(** [warnPRAuthor], in two steps: the address is resolved, then the rest
    of the function runs with [emailAddress] bound to it. *)
Definition warnPRAuthorTo (pr : PullRequest) (emailAddress : string)
           (server : string) (port : Z) (user password : string)
  : M (option error) :=
  if String.eqb emailAddress "" then
    Printf ["Email could not be determined for user ";
            GetLogin (GetUser pr); newline] ;;;
    ret None
  else
    Printf ["Sending warning email to "; emailAddress; " for PR #";
            fmtd (GetNumber pr); "."; newline] ;;;
    sendEmail emailAddress (warningSubject pr) (warningBody pr)
              server port user password.

Definition warnPRAuthor (pr : PullRequest) (server : string) (port : Z)
           (user password : string) : M (option error) :=
  emailAddress <- getEmailFromGitHubUser (GetUser pr) ;;
  warnPRAuthorTo pr emailAddress server port user password.

(** [notifyPRClosure], in the same two steps. *)
Definition notifyPRClosureTo (pr : PullRequest) (emailAddress : string)
           (server : string) (port : Z) (user password : string)
  : M (option error) :=
  if String.eqb emailAddress "" then
    Printf ["Email could not be determined for user ";
            GetLogin (GetUser pr); newline] ;;;
    ret None
  else
    Printf ["Sending closure notification email to "; emailAddress;
            " for PR #"; fmtd (GetNumber pr); "."; newline] ;;;
    sendEmail emailAddress (closureSubject pr) (closureBody pr)
              server port user password.

Definition notifyPRClosure (pr : PullRequest) (server : string) (port : Z)
           (user password : string) : M (option error) :=
  emailAddress <- getEmailFromGitHubUser (GetUser pr) ;;
  notifyPRClosureTo pr emailAddress server port user password.

(** The body of the [for _, pr := range openPRs] loop of [main]. *)
Definition processPR (c : Config) (staleCutoff : GoTime.Time)
           (pr : PullRequest) : M unit :=
  let n := fmtd (GetNumber pr) in
  Printf [newline; rule; newline] ;;;
  Printf ["Processing PR #"; n; ": "; GetTitle pr; newline] ;;;
  Printf [rule; newline] ;;;
  if hasLabel pr "do not stale" then
    Printf ["PR #"; n; " has 'do not stale' label."; newline] ;;;
    if hasLabel pr "stale-warning" then
      Printf ["Removing 'stale-warning' label from PR #"; n; "."; newline] ;;;
      err <- removeLabel (owner c) (repo c) (GetNumber pr) "stale-warning" ;;
      match err with
      | Some e =>
          Printf ["Error removing label from PR #"; n; ": "; e; newline]
      | None =>
          Printf ["Removed 'stale-warning' label from PR #"; n; "."; newline]
      end
    else ret tt
  else if GoTime.Before (GetUpdatedAt pr) staleCutoff then
    Printf ["PR #"; n; " is stale."; newline] ;;;
    if hasLabel pr "stale-warning" then
      Printf ["PR #"; n; " already has a 'stale-warning' label."; newline] ;;;
      elapsed <- timeSinceLabel pr ;;
      if GoTime.daysDuration (warningPeriod c) <? elapsed then
        Printf ["Closing PR #"; n;
                " as it has been inactive after the warning period."; newline] ;;;
        err <- closePR (owner c) (repo c) (GetNumber pr) ;;
        match err with
        | Some e => Printf ["Error closing PR #"; n; ": "; e; newline]
        | None =>
            Printf ["Closed PR #"; n; "."; newline] ;;;
            err <- notifyPRClosure pr (smtpServer c) (smtpPort c)
                                   (smtpUser c) (smtpPassword c) ;;
            match err with
            | Some e =>
                Printf ["Error sending closure email for PR #"; n; ": "; e;
                        newline]
            | None =>
                Printf ["Sent closure notification for PR #"; n; "."; newline]
            end
        end
      else
        Printf ["PR #"; n; " is still within the warning period."; newline]
    else
      Printf ["Sending warning for PR #"; n; "."; newline] ;;;
      err <- warnPRAuthor pr (smtpServer c) (smtpPort c)
                          (smtpUser c) (smtpPassword c) ;;
      match err with
      | Some e => Printf ["Error sending email for PR #"; n; ": "; e; newline]
      | None =>
          Printf ["Sent warning for PR #"; n; "."; newline] ;;;
          err <- addWarningLabel (owner c) (repo c) (GetNumber pr) ;;
          match err with
          | Some e =>
              Printf ["Error adding label to PR #"; n; ": "; e; newline]
          | None => ret tt
          end
      end
  else
    Printf ["PR #"; n; " is active."; newline] ;;;
    if hasLabel pr "stale-warning" then
      Printf ["Removing 'stale-warning' label from active PR #"; n; ".";
              newline] ;;;
      err <- removeLabel (owner c) (repo c) (GetNumber pr) "stale-warning" ;;
      match err with
      | Some e =>
          Printf ["Error removing label from PR #"; n; ": "; e; newline]
      | None =>
          Printf ["Removed 'stale-warning' label from PR #"; n; "."; newline]
      end
    else ret tt.

(** [staleCutoff := time.Now().Add(-staleDuration)]. *)
Definition staleCutoffAt (now : GoTime.Time) (days : Z) : GoTime.Time :=
  let staleDuration := GoTime.daysDuration days in
  GoTime.Add now (GoTime.neg staleDuration).

Definition missingParameterMessage : string :=
  "Missing required parameter. Please ensure all required flags or environment variables are set.".

(** The rest of [main] once [openPRs] is fetched: the count, the early
    return on an empty list, the cutoff, the loop. *)
Definition processOpenPRs (c : Config) (openPRs : list PullRequest) : M Exit :=
  Printf ["Found "; fmtd (Z.of_nat (List.length openPRs)); " open PR(s).";
          newline] ;;;
  Printf [rule; newline] ;;;
  match openPRs with
  | [] => Printf ["No open PRs found."; newline] ;;; ret Returned
  | _ =>
      now <- timeNow ;;
      let staleCutoff := staleCutoffAt now (daysInactive c) in
      forEach openPRs (processPR c staleCutoff) ;;;
      ret Returned
  end.

(** [main] from the flag values that [flag.Parse] leaves.  [fuel] bounds
    the number of pages [getOpenPRs] may fetch. *)
Definition run (fuel : nat) (c : Config) : M Exit :=
  setFallbackEmailDomain (emailDomain c) ;;;
  if missingParameter c then ret (Fatal missingParameterMessage)
  else
    Printf [rule; newline] ;;;
    Printf ["Starting the stale PR bot in production mode..."; newline] ;;;
    Printf [rule; newline] ;;;
    Printf ["Creating GitHub client..."; newline] ;;;
    match getGithubClient (githubToken c) (githubBaseURL c) with
    | Some e => ret (Fatal (Sprintf ["Error creating GitHub client: "; e]))
    | None =>
        Printf ["GitHub client created successfully."; newline] ;;;
        Printf [rule; newline] ;;;
        Printf ["Testing GitHub connection..."; newline] ;;;
        err <- testGitHubConnection ;;
        match err with
        | Some e => ret (Fatal (Sprintf ["GitHub connection test failed: "; e]))
        | None =>
            Printf ["GitHub connection successful."; newline] ;;;
            Printf [rule; newline] ;;;
            Printf ["Fetching open PRs..."; newline] ;;;
            fetched <- getOpenPRs fuel (owner c) (repo c) ;;
            match fetched with
            | None => ret Fetching
            | Some (inl e) => ret (Fatal (Sprintf ["Error fetching PRs: "; e]))
            | Some (inr openPRs) => processOpenPRs c openPRs
            end
        end
    end.

Definition banner : string := "
#############################################################
#                                                           #
#                   stale-pr-bot by kd_20                   #
#                                                           #
############################################################-
".

Definition printBanner : M unit := Printf [banner; newline].

(** [main]: the banner, the configuration from the environment (as
    [godotenv.Load] leaves it) and the command line, then the run. *)
Definition main (fuel : nat) (Getenv : string -> string) (flags : Flags)
  : M Exit :=
  printBanner ;;;
  run fuel (parseFlags Getenv flags).

(** What [flag.Parse] does with the command line.  The flag set is
    [flag.CommandLine], whose error handling is [ExitOnError]: [flag.Parse]
    returns, leaving the values of the flags that were given, or it ends
    the program itself, with status 0 after [-h] or [-help] and with status
    2 after a flag that is not defined or a value that does not parse. *)
Inductive Parse :=
| Parsed (flags : Flags)
| Exited (status : Z).

(** How the program ends: [main] ends, or [flag.Parse] has called
    [os.Exit]. *)
Inductive Outcome :=
| Ended (e : Exit)
| OsExit (status : Z).

(** [main] from the command line as [flag.Parse] finds it: when
    [flag.Parse] ends the program, the banner is all that has run. *)
Definition mainFrom (fuel : nat) (Getenv : string -> string) (p : Parse)
  : M Outcome :=
  printBanner ;;;
  match p with
  | Exited status => ret (OsExit status)
  | Parsed flags =>
      e <- run fuel (parseFlags Getenv flags) ;;
      ret (Ended e)
  end.

End Bot.

(** ** The SMTP dialogue of [sendEmail]

    [sendEmail] above takes the whole dialogue with the mail server as one
    answered call.  Here the body of the function is followed statement by
    statement: every call to [net], [net/smtp] and the [email] package is
    a step that the server side answers, and the two [defer]red calls run,
    last first, when the function returns. *)

Module Smtp.

(** The fields of [email.Email] the function sets. *)
Record Email := mkEmail {
  From : string;
  To : list string;
  Subject : string;
  Text : string
}.

Inductive Step :=
| Dial (network addr : string)
| NewClient (host : string)
| Extension (name : string)
| StartTLS (insecureSkipVerify : bool) (serverName : string)
| Auth (identity username password host : string)
| Mail (from : string)
| Rcpt (to : string)
| Data
| Bytes (e : Email)
| Write (bytes : string)
| CloseWriter
| Quit
| CloseConn.

(** A step that was made, with the error it returned. *)
Definition Event : Type := Step * option error.

(** The other side of the dialogue: which step fails with which error,
    which extensions the server announces, and the bytes [e.Bytes()]
    renders; all of it may depend on the steps made before. *)
Record Server := mkServer {
  fails : list Event -> Step -> option error;
  announces : list Event -> string -> bool;
  rendered : list Event -> Email -> string
}.

(** The steps made and the lines printed. *)
Record Session := mkSession {
  log : list Event;
  printed : list string
}.

(** A computation that returns early with an error. *)
Definition E (A : Type) : Type := Session -> (error + A) * Session.

Definition ok {A} (a : A) : E A := fun s => (inr a, s).

Definition andThen {A B} (m : E A) (k : A -> E B) : E B :=
  fun s =>
    match m s with
    | (inl e, s') => (inl e, s')
    | (inr a, s') => k a s'
    end.

Section Dialogue.
Variable srv : Server.

(** One step; its error, if any, is returned as it is. *)
Definition step (st : Step) : Session -> option error * Session :=
  fun s =>
    let r := fails srv (log s) st in
    (r, mkSession (log s ++ [(st, r)]) (printed s)).

(** [if err != nil { return fmt.Errorf(wrap + "%v", err) }] after a step. *)
Definition attempt (st : Step) (wrap : string) : E unit :=
  fun s =>
    match step st s with
    | (Some e, s') => (inl (Sprintf [wrap; e]), s')
    | (None, s') => (inr tt, s')
    end.

(** [defer cleanup()]: runs when the rest has returned; its own error is
    dropped. *)
Definition defer {A} (cleanup : Step) (rest : E A) : E A :=
  fun s =>
    let (r, s') := rest s in
    (r, snd (step cleanup s')).

(** [ok, _ := client.Extension(name)]. *)
Definition extension (name : string) : E bool :=
  fun s =>
    (inr (announces srv (log s) name),
     mkSession (log s ++ [(Extension name, None)]) (printed s)).

(** [emailBytes, err := e.Bytes()]. *)
Definition bytes (e : Email) : E string :=
  fun s =>
    match step (Bytes e) s with
    | (Some err, s') => (inl (Sprintf ["failed to generate email bytes: "; err]), s')
    | (None, s') => (inr (rendered srv (log s) e), s')
    end.

Definition Println (line : string) : E unit :=
  fun s => (inr tt, mkSession (log s) (printed s ++ [Sprintf [line; newline]])).

Definition sendEmail (toEmail subject body smtpServer : string) (smtpPort : Z)
           (smtpUser smtpPassword : string) : Session -> option error * Session :=
  fun s =>
    let e := mkEmail smtpUser [toEmail] subject body in
    let auth := Auth "" smtpUser smtpPassword smtpServer in
    let addr := Sprintf [smtpServer; ":"; fmtd smtpPort] in
    let (r, s') :=
      andThen (attempt (Dial "tcp" addr) "failed to connect to SMTP server: ")
        (fun _ =>
      defer CloseConn (
      andThen (attempt (NewClient smtpServer) "failed to create SMTP client: ")
        (fun _ =>
      defer Quit (
      andThen (extension "STARTTLS") (fun offered =>
      andThen (if offered : bool
               then attempt (StartTLS true smtpServer)
                            "failed to initiate STARTTLS: "
               else Println "SMTP server does not support STARTTLS")
        (fun _ =>
      andThen (attempt auth "failed to authenticate: ") (fun _ =>
      andThen (attempt (Mail (From e)) "failed to set sender: ") (fun _ =>
      andThen (attempt (Rcpt toEmail) "failed to set recipient: ") (fun _ =>
      andThen (attempt Data "failed to send data command: ") (fun _ =>
      andThen (bytes e) (fun emailBytes =>
      andThen (attempt (Write emailBytes) "failed to write email body: ")
        (fun _ =>
      attempt CloseWriter "failed to close email body writer: "))))))))))))
      s in
    (match r with inl err => Some err | inr _ => None end, s').

End Dialogue.

(** The steps that belong to the body of the function, not to a [defer]. *)
Definition isDeferred (st : Step) : bool :=
  match st with
  | Quit | CloseConn => true
  | _ => false
  end.

Definition isAuth (st : Step) : bool :=
  match st with
  | Auth _ _ _ _ => true
  | _ => false
  end.

Definition isStartTLS (st : Step) : bool :=
  match st with
  | StartTLS _ _ => true
  | _ => false
  end.

(** The text [sendEmail] puts before the error of a step of its body. *)
Definition wrapOf (st : Step) : string :=
  match st with
  | Dial _ _ => "failed to connect to SMTP server: "
  | NewClient _ => "failed to create SMTP client: "
  | StartTLS _ _ => "failed to initiate STARTTLS: "
  | Auth _ _ _ _ => "failed to authenticate: "
  | Mail _ => "failed to set sender: "
  | Rcpt _ => "failed to set recipient: "
  | Data => "failed to send data command: "
  | Bytes _ => "failed to generate email bytes: "
  | Write _ => "failed to write email body: "
  | CloseWriter => "failed to close email body writer: "
  | Extension _ | Quit | CloseConn => ""
  end.

(** No [Auth] step before a [StartTLS] step has succeeded; [secured] says
    whether one has. *)
Fixpoint authOnlyAfterTLS (secured : bool) (l : list Event) : bool :=
  match l with
  | [] => true
  | (StartTLS _ _, None) :: rest => authOnlyAfterTLS true rest
  | (Auth _ _ _ _, _) :: rest => secured && authOnlyAfterTLS secured rest
  | _ :: rest => authOnlyAfterTLS secured rest
  end.

Definition freshSession : Session := mkSession [] [].

(** A server on which every step succeeds and that announces STARTTLS, and
    one that does not announce it. *)
Definition tlsServer : Server :=
  mkServer (fun _ _ => None) (fun _ _ => true) (fun _ e => Text e).

Definition plainServer : Server :=
  mkServer (fun _ _ => None) (fun _ _ => false) (fun _ e => Text e).

(** A server that refuses the recipient. *)
Definition pickyServer : Server :=
  mkServer (fun _ st => match st with
                        | Rcpt _ => Some "550 no such user"
                        | _ => None
                        end)
           (fun _ _ => true) (fun _ e => Text e).

(** A server that cannot be reached. *)
Definition downServer : Server :=
  mkServer (fun _ st => match st with
                        | Dial _ _ => Some "connection refused"
                        | _ => None
                        end)
           (fun _ _ => true) (fun _ e => Text e).

End Smtp.

(** ** Vocabulary of the properties *)

(** The address a notice for [pr] goes to, from the state it is resolved in. *)
Definition recipient (uTL : string -> string) (pr : PullRequest) (s : State)
  : string :=
  fst (getEmailFromGitHubUser uTL (GetUser pr) s).

(** The calls made on the way from state [s] to state [s']. *)
Definition callsSince (s s' : State) : list Call :=
  skipn (List.length (calls s)) (calls s').


(** The calls of the startup, which read and change nothing remote. *)
Definition isReadOnly (o : Op) : bool :=
  match o with
  | UsersGet | PullRequestsList _ _ _ _ => true
  | _ => false
  end.

(** The line that opens the processing of one pull request. *)
Definition processingHeader (pr : PullRequest) : string :=
  Sprintf ["Processing PR #"; fmtd (GetNumber pr); ": "; GetTitle pr; newline].

(** A line of the form [Error <what>: <err>], as every failure of a
    per-pull-request operation is printed. *)
Definition reportsError (e : error) (line : string) : Prop :=
  exists what, line = Sprintf ["Error "; what; ": "; e; newline].

(** Two bytes that are equal or the two cases of one ASCII letter. *)
Definition sameLetter (a b : ascii) : bool :=
  Ascii.eqb a b
  || (GoStrings.isUpper a && Ascii.eqb b (GoStrings.lowerByte a))
  || (GoStrings.isUpper b && Ascii.eqb a (GoStrings.lowerByte b)).

(** Two names of the same length that differ at most in letter case. *)
Fixpoint onlyCaseDiffers (s t : string) : bool :=
  match s, t with
  | EmptyString, EmptyString => true
  | String a s', String b t' => sameLetter a b && onlyCaseDiffers s' t'
  | _, _ => false
  end.

Definition allBytes : list ascii := map ascii_of_nat (seq 0 256).

Definition withPort (c : Config) (p : Z) : Config :=
  mkConfig (githubToken c) (githubBaseURL c) (owner c) (repo c)
           (daysInactive c) (warningPeriod c) (smtpServer c) p
           (smtpUser c) (smtpPassword c) (emailDomain c).

(** One round of the byte loop of [EqualFold] on the bytes [a] and [b]:
    [true] when the loop goes on to the next position. *)
Definition foldStep (a b : ascii) : bool :=
  let sr := GoStrings.byte a in
  let tr := GoStrings.byte b in
  negb (N.leb GoStrings.RuneSelf (N.lor sr tr))
  && (N.eqb tr sr
      || (N.leb 65 (N.min sr tr) && N.leb (N.min sr tr) 90
          && N.eqb (N.max sr tr) (N.min sr tr + 97 - 65))).

(** For an ASCII byte [b], a byte [a] that is the same letter passes the
    round; checked on all pairs of bytes. *)
Definition foldStepComplete (a b : ascii) : bool :=
  implb (sameLetter a b && N.ltb (GoStrings.byte b) GoStrings.RuneSelf)
        (foldStep a b).

(** A host that serves the pages of [chain], each with its number, one
    after the other: every page names the next, the last one names none. *)
Fixpoint linked (pages : Z -> list PullRequest * Z)
         (chain : list (Z * list PullRequest)) : Prop :=
  match chain with
  | [] => False
  | (p, prs) :: rest =>
      match rest with
      | [] => pages p = (prs, 0)
      | (q, _) :: _ => pages p = (prs, q) /\ q <> 0 /\ linked pages rest
      end
  end.

(** The listing calls for the pages of a chain, all of them answered. *)
Definition listingCalls (ow rp : string) (chain : list (Z * list PullRequest))
  : list Call :=
  map (fun page => mkCall (PullRequestsList ow rp (fst page) 100) None) chain.

(** The calls one pull request can cause, by its labels and its age
    against the cutoff: none or one removal of [stale-warning] when it is
    opted out or active; nothing, a failed close, or a close and a closure
    notice when it is stale and warned; a failed warning, or a warning and
    the addition of [stale-warning], when it is stale and not warned.
    [s0] is a state that holds the fallback domain of the run. *)
Definition chunkShape (uTL : string -> string) (uEF : string -> string -> bool)
           (c : Config) (staleCutoff : GoTime.Time) (s0 : State)
           (pr : PullRequest) (chunk : list Call) : Prop :=
  let removal :=
    IssuesRemoveLabel (owner c) (repo c) (GetNumber pr) "stale-warning" in
  let close := PullRequestsEdit (owner c) (repo c) (GetNumber pr) "closed" in
  let add :=
    IssuesAddLabels (owner c) (repo c) (GetNumber pr) ["stale-warning"] in
  let warning :=
    SendEmail (recipient uTL pr s0) (warningSubject pr) (warningBody pr)
              (smtpServer c) (smtpPort c) (smtpUser c) (smtpPassword c) in
  let notice :=
    SendEmail (recipient uTL pr s0) (closureSubject pr) (closureBody pr)
              (smtpServer c) (smtpPort c) (smtpUser c) (smtpPassword c) in
  if hasLabel uEF pr "do not stale"
     || negb (GoTime.Before (GetUpdatedAt pr) staleCutoff)
  then
    if hasLabel uEF pr "stale-warning"
    then exists r, chunk = [mkCall removal r]
    else chunk = []
  else if hasLabel uEF pr "stale-warning" then
    chunk = []
    \/ (exists e, chunk = [mkCall close (Some e)])
    \/ (exists r, chunk = [mkCall close None; mkCall notice r])
  else
    (exists e, chunk = [mkCall warning (Some e)])
    \/ (exists r, chunk = [mkCall warning None; mkCall add r]).

Definition isEmail (o : Op) : bool :=
  match o with
  | SendEmail _ _ _ _ _ _ _ => true
  | _ => false
  end.

(** What entitles the program to a call, given the pull request it is
    made for: a close needs a stale, warned pull request that is not opted
    out; an email a stale one that is not opted out; the addition of the
    warning label one that does not carry it; its removal one that does.
    All of them go to the configured repository and concern no state but
    [closed] and no label but [stale-warning]. *)
Definition entitled (uEF : string -> string -> bool) (c : Config)
           (staleCutoff : GoTime.Time) (pr : PullRequest) (o : Op) : Prop :=
  let stale := GoTime.Before (GetUpdatedAt pr) staleCutoff in
  let warned := hasLabel uEF pr "stale-warning" in
  let optedOut := hasLabel uEF pr "do not stale" in
  match o with
  | PullRequestsEdit ow rp n st =>
      ow = owner c /\ rp = repo c /\ n = GetNumber pr /\ st = "closed"
      /\ optedOut = false /\ stale = true /\ warned = true
  | IssuesAddLabels ow rp n ls =>
      ow = owner c /\ rp = repo c /\ n = GetNumber pr /\ ls = ["stale-warning"]
      /\ optedOut = false /\ stale = true /\ warned = false
  | IssuesRemoveLabel ow rp n l =>
      ow = owner c /\ rp = repo c /\ n = GetNumber pr /\ l = "stale-warning"
      /\ warned = true /\ (optedOut = true \/ stale = false)
  | SendEmail _ subject body server port user password =>
      server = smtpServer c /\ port = smtpPort c /\ user = smtpUser c
      /\ password = smtpPassword c
      /\ optedOut = false /\ stale = true
      /\ (if warned
          then subject = closureSubject pr /\ body = closureBody pr
          else subject = warningSubject pr /\ body = warningBody pr)
  | UsersGet | PullRequestsList _ _ _ _ => False
  end.

(** On two ASCII bytes a round of the byte loop goes on exactly when they
    are the same letter; checked on all pairs of bytes. *)
Definition foldStepExact (a b : ascii) : bool :=
  implb (N.ltb (GoStrings.byte a) GoStrings.RuneSelf
         && N.ltb (GoStrings.byte b) GoStrings.RuneSelf)
        (Bool.eqb (foldStep a b) (sameLetter a b)).

(** Bytes that are the same letter have the same lower case; checked on
    all pairs of bytes. *)
Definition lowerAgrees (a b : ascii) : bool :=
  implb (sameLetter a b)
        (Ascii.eqb (GoStrings.lowerByte a) (GoStrings.lowerByte b)).

(** The answer a call gets when the mail is handled by the server [srv]:
    for [SendEmail] the result of the dialogue of [Smtp.sendEmail] on a
    fresh connection. *)
Definition mailedBy (srv : Smtp.Server) (W : World) : Prop :=
  forall h toEmail subject body server port user password,
    answer W h (SendEmail toEmail subject body server port user password)
    = fst (Smtp.sendEmail srv toEmail subject body server port user password
                          Smtp.freshSession).

(** The largest number of days whose [Duration] fits an [int64]. *)
Definition maxDays : Z := 106751.

(** ** Concrete worlds and pull requests *)

Definition day : Z := 86400000000000.
Definition hour : Z := 3600000000000.

(** Midnight of a day counted from January 1, year 1 (day 0). *)
Definition onDay (d : Z) : GoTime.Time := d * day.

(** June 1, 2024. *)
Definition june1 : GoTime.Time := onDay 739037.

Definition identityLower (s : string) : string := s.
Definition neverFold (s t : string) : bool := false.

(** A world whose clock stands still and in which every call succeeds. *)
Definition calmWorld (now : GoTime.Time) : World :=
  mkWorld (fun _ => now) (fun _ => None) (fun _ _ => None)
          (fun _ => "stale-bot") (fun _ _ => ([], 0)).

(** A world in which every remote call fails. *)
Definition brokenWorld (now : GoTime.Time) : World :=
  mkWorld (fun _ => now) (fun _ => None) (fun _ _ => Some "connection refused")
          (fun _ => "stale-bot") (fun _ _ => ([], 0)).

(** A world whose clock is set back by two hours after its first reading. *)
Definition setBackWorld (now : GoTime.Time) : World :=
  mkWorld (fun k => match k with O => now | _ => now - 2 * hour end)
          (fun _ => None) (fun _ _ => None)
          (fun _ => "stale-bot") (fun _ _ => ([], 0)).

(** A world whose first page of pull requests announces a page 2, the
    listing of which fails. *)
Definition secondPageFailsWorld (now : GoTime.Time) (first : list PullRequest)
  : World :=
  mkWorld (fun _ => now) (fun _ => None)
          (fun _ o => match o with
                      | PullRequestsList _ _ 2 _ => Some "502 Bad Gateway"
                      | _ => None
                      end)
          (fun _ => "stale-bot") (fun _ _ => (first, 2)).

(** A host with three pages, numbered 0, 2 and 3. *)
Definition threePages (a b c : list PullRequest) (p : Z)
  : list PullRequest * Z :=
  if p =? 0 then (a, 2) else if p =? 2 then (b, 3) else (c, 0).

Definition pagedWorld (now : GoTime.Time)
           (pages : Z -> list PullRequest * Z) : World :=
  mkWorld (fun _ => now) (fun _ => None) (fun _ _ => None)
          (fun _ => "stale-bot") (fun _ p => pages p).

(** A host on which every page names page 2 as the next. *)
Definition endlessPages (p : Z) : list PullRequest * Z := ([], 2).

(** A world whose GitHub calls succeed and whose mail goes through [srv]. *)
Definition mailWorld (now : GoTime.Time) (srv : Smtp.Server) : World :=
  mkWorld (fun _ => now) (fun _ => None)
          (fun _ o =>
             match o with
             | SendEmail toEmail subject body server port user password =>
                 fst (Smtp.sendEmail srv toEmail subject body server port user
                                     password Smtp.freshSession)
             | _ => None
             end)
          (fun _ => "stale-bot") (fun _ _ => ([], 0)).

Definition sampleFlags : Flags :=
  mkFlags (Some "token") (Some "https://api.github.com/")
          (Some "octo") (Some "hello") (Some 30) (Some 7)
          (Some "smtp.example.com") None
          (Some "bot@example.com") (Some "secret") None.

Definition sampleConfig (days period : Z) : Config :=
  mkConfig "token" "https://api.github.com/" "octo" "hello" days period
           "smtp.example.com" 587 "bot@example.com" "secret" "example.com".

Definition readyState : State := mkState "example.com" [] [] 0.

Definition bob : User := mkUser (Some "Bob") None.
Definition alice : User := mkUser (Some "alice") (Some "a@b.com").
Definition ghost : User := mkUser (Some "") None.

Definition prOf (u : User) (n : Z) (updated : GoTime.Time)
           (labels : list string) : PullRequest :=
  mkPR (Some n) (Some "Improve docs") (Some updated) (Some u)
       (map (fun l => mkLabel (Some l)) labels)
       (Some "https://github.com/octo/hello/pull/1").

Definition samplePR := prOf bob.

(** The pull requests of the scenarios: #12 last updated on April 1, 2024,
    #13 on May 30, 2024. *)
Definition april1 : GoTime.Time := onDay 738976.
Definition may30 : GoTime.Time := onDay 739035.

Definition sampleEnv (name : string) : string :=
  if String.eqb name "DAYS_INACTIVE" then "thirty"
  else if String.eqb name "WARNING_PERIOD" then "7d"
  else if String.eqb name "SMTP_PORT" then "smtp"
  else "".

(** ** Properties *)

(** *** The effects of processing one pull request *)

Ltac crunch := cbn [fst snd calls stdout clockReads fallbackEmailDomain].

Ltac run_body :=
  unfold processPR, warnPRAuthor, notifyPRClosure, warnPRAuthorTo,
    notifyPRClosureTo, getEmailFromGitHubUser,
    timeSinceLabel, timeNow, closePR, addWarningLabel, removeLabel, sendEmail,
    remote, getFallbackEmailDomain, bind, Printf, ret;
  cbn [fst snd calls stdout clockReads fallbackEmailDomain].

Lemma synthesized_address_not_empty (username domain : string) :
  String.eqb (Sprintf [username; "@"; domain]) "" = false.
Proof. destruct username; reflexivity. Qed.

(** The resolver returns the public email when there is one and the
    synthesized address otherwise; it only prints. *)
Lemma getEmailFromGitHubUser_spec (uTL : string -> string) (u : option User)
      (s : State) :
  let r := getEmailFromGitHubUser uTL u s in
  fst r = (if String.eqb (GetEmail u) "" 
           then Sprintf [GoStrings.ToLower uTL (GetLogin u); "@";
                         fallbackEmailDomain s]
           else GetEmail u)
  /\ calls (snd r) = calls s
  /\ clockReads (snd r) = clockReads s
  /\ fallbackEmailDomain (snd r) = fallbackEmailDomain s.
Proof.
  unfold getEmailFromGitHubUser, getFallbackEmailDomain, bind, Printf, ret.
  destruct (String.eqb (GetEmail u) ""); cbn; auto.
Qed.

Lemma recipient_not_empty (uTL : string -> string) (pr : PullRequest) (s : State) :
  String.eqb (recipient uTL pr s) "" = false.
Proof.
  unfold recipient.
  destruct (getEmailFromGitHubUser_spec uTL (GetUser pr) s) as [-> _].
  destruct (String.eqb (GetEmail (GetUser pr)) "") eqn:E; [ | exact E].
  apply synthesized_address_not_empty.
Qed.

(** Thresholds as durations. *)

Lemma wrap64_in_range (z : Z) :
  - 2 ^ 63 <= z < 2 ^ 63 -> GoTime.wrap64 z = z.
Proof.
  intros H. unfold GoTime.wrap64.
  rewrite Z.mod_small; lia.
Qed.

(** Up to [maxDays] days the conversion to a [Duration] is exact. *)
Lemma daysDuration_exact (d : Z) :
  0 <= d <= maxDays -> GoTime.daysDuration d = d * day.
Proof.
  unfold maxDays, day. intros H.
  unfold GoTime.daysDuration, GoTime.mul, GoTime.Hour.
  rewrite (wrap64_in_range d) by lia.
  rewrite (wrap64_in_range (d * 24)) by lia.
  rewrite wrap64_in_range by lia. lia.
Qed.

Lemma staleCutoffAt_exact (now : GoTime.Time) (d : Z) :
  0 <= d <= maxDays -> staleCutoffAt now d = now - d * day.
Proof.
  intros H. unfold staleCutoffAt, GoTime.Add, GoTime.neg.
  rewrite (daysDuration_exact d H).
  unfold maxDays, day in *. rewrite wrap64_in_range by lia. lia.
Qed.

Lemma missingParameter_false (c : Config) :
  missingParameter c = false -> 0 < daysInactive c /\ 0 < warningPeriod c.
Proof.
  unfold missingParameter. intros H.
  repeat (apply orb_false_iff in H; destruct H as [H ?]).
  split; apply Z.leb_gt; assumption.
Qed.

(** For a warning period of 1 to [maxDays] days the test of the close
    branch, on the saturating [time.Since] and the converted period, is the
    comparison of the elapsed time with that many days. *)
Lemma grace_test_exact (now updated : GoTime.Time) (days : Z) :
  0 < days <= maxDays ->
  (GoTime.daysDuration days <? GoTime.Sub now updated)
  = (days * day <? now - updated).
Proof.
  intros H. rewrite daysDuration_exact by lia.
  unfold GoTime.Sub, GoTime.maxDuration, GoTime.minDuration.
  unfold maxDays, day in *.
  repeat match goal with
         | |- context [if ?a <? ?b then _ else _] => destruct (Z.ltb_spec a b)
         end;
    repeat match goal with
           | |- context [?a <? ?b] => destruct (Z.ltb_spec a b)
           end; try reflexivity; lia.
Qed.

(** C1.  A pull request that carries the opt-out label [do not stale] is
    never closed, warned or mailed, whatever its age and whatever the
    cutoff: the only remote call its processing can make is one removal of
    [stale-warning], made exactly when the pull request carries that label;
    the clock is not read. *)
Theorem optout_only_removes_warning_label
    (uTL : string -> string) (uEF : string -> string -> bool) (W : World)
    (c : Config) (staleCutoff : GoTime.Time) (pr : PullRequest) (s : State) :
  hasLabel uEF pr "do not stale" = true ->
  let s' := snd (processPR uTL uEF W c staleCutoff pr s) in
  let removal :=
    IssuesRemoveLabel (owner c) (repo c) (GetNumber pr) "stale-warning" in
  calls s' =
    calls s ++ (if hasLabel uEF pr "stale-warning"
                then [mkCall removal (answer W (calls s) removal)]
                else [])
  /\ clockReads s' = clockReads s
  /\ fallbackEmailDomain s' = fallbackEmailDomain s.
Proof.
  intros Hopt. run_body. rewrite Hopt.
  destruct (hasLabel uEF pr "stale-warning"); cbn.
  - destruct (answer W (calls s) _); cbn; auto.
  - rewrite app_nil_r; auto.
Qed.

(** Pull request #14 of the scenarios, sixty-one days without an update,
    with both labels: one removal, nothing else. *)
Lemma optout_only_removes_warning_label_witness :
  hasLabel neverFold (samplePR 14 april1 ["do not stale"; "stale-warning"])
           "do not stale" = true
  /\ calls (snd (processPR identityLower neverFold (calmWorld june1)
                           (sampleConfig 30 7) (staleCutoffAt june1 30)
                           (samplePR 14 april1 ["do not stale"; "stale-warning"])
                           readyState))
     = [mkCall (IssuesRemoveLabel "octo" "hello" 14 "stale-warning") None].
Proof.
  split; [reflexivity | ].
  exact (proj1 (optout_only_removes_warning_label identityLower neverFold
                  (calmWorld june1) (sampleConfig 30 7) (staleCutoffAt june1 30)
                  (samplePR 14 april1 ["do not stale"; "stale-warning"])
                  readyState eq_refl)).
Defined.

(** The stale branch for a pull request that already carries the warning
    label: one clock reading; past the grace period a close and, if it
    succeeded, one closure notice; within it nothing. *)
Lemma processPR_stale_warned
    (uTL : string -> string) (uEF : string -> string -> bool) (W : World)
    (c : Config) (staleCutoff : GoTime.Time) (pr : PullRequest) (s : State) :
  hasLabel uEF pr "do not stale" = false ->
  GoTime.Before (GetUpdatedAt pr) staleCutoff = true ->
  hasLabel uEF pr "stale-warning" = true ->
  let s' := snd (processPR uTL uEF W c staleCutoff pr s) in
  let elapsed := GoTime.Sub (wallClock W (clockReads s)) (GetUpdatedAt pr) in
  let close := PullRequestsEdit (owner c) (repo c) (GetNumber pr) "closed" in
  let notice :=
    SendEmail (recipient uTL pr s) (closureSubject pr) (closureBody pr)
              (smtpServer c) (smtpPort c) (smtpUser c) (smtpPassword c) in
  calls s' =
    calls s ++
    (if GoTime.daysDuration (warningPeriod c) <? elapsed then
       match answer W (calls s) close with
       | Some e => [mkCall close (Some e)]
       | None =>
           [mkCall close None;
            mkCall notice (answer W (calls s ++ [mkCall close None]) notice)]
       end
     else []).
Proof.
  intros Hopt Hstale Hwarn.
  pose proof (recipient_not_empty uTL pr s) as Hne. revert Hne.
  unfold recipient. run_body. rewrite Hopt, Hstale, Hwarn. cbn.
  destruct (_ <? _); cbn; [ | now rewrite app_nil_r].
  destruct (answer W (calls s) _) eqn:Eclose; cbn; [reflexivity | ].
  destruct (String.eqb (GetEmail (GetUser pr)) ""); cbn; intros Hne;
    rewrite Hne; cbn;
    match goal with |- context [answer W ?h ?o] => destruct (answer W h o) end;
    cbn; rewrite <- app_assoc; reflexivity.
Qed.

(** C2, as stated, fails in two ways.  First, for a pull request that also
    carries the opt-out label: #14 is stale (61 days against a threshold of
    30), carries [stale-warning], and its 61 days exceed the grace period of
    7, yet it is not closed; its only call is the removal of the warning
    label.  Second, a warning period of 106752 days passes the startup
    check but its conversion to an [int64] of nanoseconds wraps around to a
    negative duration: a stale, warned pull request last updated 31 days
    ago has not exceeded those 106752 days, yet it is closed and its author
    notified. *)
Lemma stale_warned_close_is_not_by_elapsed_time_alone :
  (let pr := samplePR 14 april1 ["do not stale"; "stale-warning"] in
   let c := sampleConfig 30 7 in
   let s' := snd (processPR identityLower neverFold (calmWorld june1) c
                            (staleCutoffAt june1 (daysInactive c)) pr readyState) in
   missingParameter c = false
   /\ GetUpdatedAt pr < june1 - daysInactive c * day
   /\ GoTime.Before (GetUpdatedAt pr) (staleCutoffAt june1 (daysInactive c)) = true
   /\ hasLabel neverFold pr "stale-warning" = true
   /\ warningPeriod c * day < june1 - GetUpdatedAt pr
   /\ ~ In (PullRequestsEdit "octo" "hello" 14 "closed") (map callOp (calls s'))
   /\ calls s' = [mkCall (IssuesRemoveLabel "octo" "hello" 14 "stale-warning") None])
  /\ (let pr := samplePR 19 (june1 - 31 * day) ["stale-warning"] in
      let c := sampleConfig 30 106752 in
      let s' := snd (processPR identityLower neverFold (calmWorld june1) c
                               (staleCutoffAt june1 (daysInactive c)) pr
                               readyState) in
      missingParameter c = false
      /\ hasLabel neverFold pr "do not stale" = false
      /\ GetUpdatedAt pr < june1 - daysInactive c * day
      /\ GoTime.Before (GetUpdatedAt pr) (staleCutoffAt june1 (daysInactive c)) = true
      /\ hasLabel neverFold pr "stale-warning" = true
      /\ june1 - GetUpdatedAt pr <= warningPeriod c * day
      /\ GoTime.daysDuration (warningPeriod c) < 0
      /\ calls s' =
           [mkCall (PullRequestsEdit "octo" "hello" 19 "closed") None;
            mkCall (SendEmail "bob@example.com" (closureSubject pr)
                              (closureBody pr) "smtp.example.com" 587
                              "bot@example.com" "secret")
                   None]).
Proof.
  cbv zeta. split.
  - repeat split; try reflexivity.
    vm_compute. intros [H | []]. discriminate H.
  - repeat split; try reflexivity. vm_compute. discriminate.
Qed.

(** C2, amended.  Let the configuration have passed the startup check and
    the warning period be at most [maxDays] days (so that its conversion to
    nanoseconds does not wrap around).  For a pull request without the
    opt-out label that is stale and carries the warning label, with [now]
    the clock as [time.Since] reads it: when [now] minus the last update
    exceeds the warning period, in days, the pull request is closed, and
    the closure notice is sent only if the close succeeded (a failed close
    is the only call; after a successful close the notice is the last call,
    whatever its outcome); when it does not exceed the warning period, no
    call is made at all. *)
Theorem stale_warned_close_iff_grace_exceeded
    (uTL : string -> string) (uEF : string -> string -> bool) (W : World)
    (c : Config) (staleCutoff : GoTime.Time) (pr : PullRequest) (s : State) :
  missingParameter c = false ->
  warningPeriod c <= maxDays ->
  hasLabel uEF pr "do not stale" = false ->
  GoTime.Before (GetUpdatedAt pr) staleCutoff = true ->
  hasLabel uEF pr "stale-warning" = true ->
  let s' := snd (processPR uTL uEF W c staleCutoff pr s) in
  let now := wallClock W (clockReads s) in
  let close := PullRequestsEdit (owner c) (repo c) (GetNumber pr) "closed" in
  let notice :=
    SendEmail (recipient uTL pr s) (closureSubject pr) (closureBody pr)
              (smtpServer c) (smtpPort c) (smtpUser c) (smtpPassword c) in
  (warningPeriod c * day < now - GetUpdatedAt pr ->
   (forall e, answer W (calls s) close = Some e ->
              calls s' = calls s ++ [mkCall close (Some e)])
   /\ (answer W (calls s) close = None ->
       calls s' =
         calls s ++
         [mkCall close None;
          mkCall notice (answer W (calls s ++ [mkCall close None]) notice)]))
  /\ (now - GetUpdatedAt pr <= warningPeriod c * day ->
      calls s' = calls s).
Proof.
  intros Hok Hmax Hopt Hstale Hwarn.
  destruct (missingParameter_false c Hok) as [_ Hpos].
  pose proof (processPR_stale_warned uTL uEF W c staleCutoff pr s
                Hopt Hstale Hwarn) as H.
  cbv zeta in *.
  rewrite grace_test_exact in H by lia. split.
  - intros Hlate. apply Z.ltb_lt in Hlate. rewrite Hlate in H. split.
    + intros e He. now rewrite He in H.
    + intros He. now rewrite He in H.
  - intros Hearly. apply Z.ltb_ge in Hearly.
    rewrite Hearly, app_nil_r in H. exact H.
Qed.

(** Pull request #12 of the scenarios, warned and still untouched after 61
    days, against a warning period of 7: closed, then notified. *)
Lemma stale_warned_close_iff_grace_exceeded_witness :
  let pr := samplePR 12 april1 ["stale-warning"] in
  (missingParameter (sampleConfig 30 7) = false
   /\ warningPeriod (sampleConfig 30 7) <= maxDays
   /\ warningPeriod (sampleConfig 30 7) * day < june1 - GetUpdatedAt pr)
  /\ calls (snd (processPR identityLower neverFold (calmWorld june1)
                           (sampleConfig 30 7) (staleCutoffAt june1 30) pr
                           readyState))
     = [mkCall (PullRequestsEdit "octo" "hello" 12 "closed") None;
        mkCall (SendEmail "bob@example.com" (closureSubject pr) (closureBody pr)
                          "smtp.example.com" 587 "bot@example.com" "secret")
               None].
Proof.
  cbv zeta. split.
  - repeat split; vm_compute; congruence.
  - exact (proj2 (proj1 (stale_warned_close_iff_grace_exceeded
                           identityLower neverFold (calmWorld june1)
                           (sampleConfig 30 7) (staleCutoffAt june1 30)
                           (samplePR 12 april1 ["stale-warning"]) readyState
                           eq_refl ltac:(vm_compute; discriminate)
                           eq_refl eq_refl eq_refl)
                        ltac:(vm_compute; reflexivity)) eq_refl).
Defined.

(** C3, as stated, fails for a pull request that carries the opt-out label:
    it is stale and has no warning label, yet no warning is sent; no call
    is made for it at all. *)
Lemma stale_unwarned_optout_is_not_warned :
  let pr := samplePR 15 april1 ["do not stale"] in
  let c := sampleConfig 30 7 in
  let s' := snd (processPR identityLower neverFold (calmWorld june1) c
                           (staleCutoffAt june1 (daysInactive c)) pr readyState) in
  GoTime.Before (GetUpdatedAt pr) (staleCutoffAt june1 (daysInactive c)) = true
  /\ hasLabel neverFold pr "stale-warning" = false
  /\ calls s' = [].
Proof. cbv zeta. repeat split; reflexivity. Qed.

(** C3, amended.  For a pull request without the opt-out label that is
    stale and does not carry the warning label, the warning email is sent,
    and [stale-warning] is added if and only if that send succeeded: a
    failed send is the only call, so the labels are as they were. *)
Theorem stale_unwarned_warns_then_labels
    (uTL : string -> string) (uEF : string -> string -> bool) (W : World)
    (c : Config) (staleCutoff : GoTime.Time) (pr : PullRequest) (s : State) :
  hasLabel uEF pr "do not stale" = false ->
  GoTime.Before (GetUpdatedAt pr) staleCutoff = true ->
  hasLabel uEF pr "stale-warning" = false ->
  let s' := snd (processPR uTL uEF W c staleCutoff pr s) in
  let warning :=
    SendEmail (recipient uTL pr s) (warningSubject pr) (warningBody pr)
              (smtpServer c) (smtpPort c) (smtpUser c) (smtpPassword c) in
  let add :=
    IssuesAddLabels (owner c) (repo c) (GetNumber pr) ["stale-warning"] in
  (forall e, answer W (calls s) warning = Some e ->
             calls s' = calls s ++ [mkCall warning (Some e)])
  /\ (answer W (calls s) warning = None ->
      calls s' =
        calls s ++
        [mkCall warning None;
         mkCall add (answer W (calls s ++ [mkCall warning None]) add)]).
Proof.
  intros Hopt Hstale Hwarn.
  pose proof (recipient_not_empty uTL pr s) as Hne. revert Hne.
  unfold recipient. run_body. rewrite Hopt, Hstale, Hwarn. cbn.
  destruct (String.eqb (GetEmail (GetUser pr)) ""); cbn; intros Hne;
    rewrite Hne; cbn; split.
  all: try (intros e He; rewrite He; reflexivity).
  all: intros He; rewrite He; cbn;
    match goal with |- context [answer ?w ?h ?o] => destruct (answer w h o) end;
    cbn; rewrite <- app_assoc; reflexivity.
Qed.

(** Pull request #12 of the scenarios on June 1, 2024: warned, then
    labelled. *)
Lemma stale_unwarned_warns_then_labels_witness :
  let pr := samplePR 12 april1 [] in
  calls (snd (processPR identityLower neverFold (calmWorld june1)
                        (sampleConfig 30 7) (staleCutoffAt june1 30) pr
                        readyState))
  = [mkCall (SendEmail "bob@example.com" (warningSubject pr) (warningBody pr)
                       "smtp.example.com" 587 "bot@example.com" "secret")
            None;
     mkCall (IssuesAddLabels "octo" "hello" 12 ["stale-warning"]) None].
Proof.
  exact (proj2 (stale_unwarned_warns_then_labels
                  identityLower neverFold (calmWorld june1)
                  (sampleConfig 30 7) (staleCutoffAt june1 30)
                  (samplePR 12 april1 []) readyState
                  eq_refl eq_refl eq_refl) eq_refl).
Defined.

(** The active branch: a pull request the staleness test of [main] does
    not judge stale causes no call, unless it carries the warning label:
    then the one call is the removal of that label.  The clock is not read
    again.  This holds with and without the opt-out label. *)
Lemma processPR_active
    (uTL : string -> string) (uEF : string -> string -> bool) (W : World)
    (c : Config) (staleCutoff : GoTime.Time) (pr : PullRequest) (s : State) :
  GoTime.Before (GetUpdatedAt pr) staleCutoff = false ->
  let s' := snd (processPR uTL uEF W c staleCutoff pr s) in
  let removal :=
    IssuesRemoveLabel (owner c) (repo c) (GetNumber pr) "stale-warning" in
  calls s' =
    calls s ++ (if hasLabel uEF pr "stale-warning"
                then [mkCall removal (answer W (calls s) removal)]
                else [])
  /\ clockReads s' = clockReads s.
Proof.
  intros Hactive. run_body. rewrite Hactive.
  destruct (hasLabel uEF pr "do not stale");
    destruct (hasLabel uEF pr "stale-warning"); cbn;
    try (rewrite app_nil_r; auto);
    destruct (answer W (calls s) _); cbn; auto.
Qed.

(** C4, as stated, fails for an inactivity threshold of 106752 days, which
    passes the startup check but whose conversion to an [int64] of
    nanoseconds wraps around to a negative duration.  The cutoff of [main]
    then lies in the future: a pull request without labels that was updated
    an hour ago, long after [now] minus 106752 days, is sent the warning
    and given the warning label. *)
Lemma wrapped_threshold_warns_an_active_pull_request :
  let c := sampleConfig 106752 7 in
  let pr := samplePR 20 (june1 - hour) [] in
  let s' := snd (processOpenPRs identityLower neverFold (calmWorld june1) c
                                [pr] readyState) in
  missingParameter c = false
  /\ june1 - daysInactive c * day <= GetUpdatedAt pr
  /\ hasLabel neverFold pr "stale-warning" = false
  /\ GoTime.daysDuration (daysInactive c) < 0
  /\ calls s' =
       [mkCall (SendEmail "bob@example.com" (warningSubject pr) (warningBody pr)
                          "smtp.example.com" 587 "bot@example.com" "secret")
               None;
        mkCall (IssuesAddLabels "octo" "hello" 20 ["stale-warning"]) None].
Proof.
  cbv zeta. repeat split; try reflexivity; vm_compute; discriminate.
Qed.

(** C4, amended.  Let the configuration have passed the startup check and
    the inactivity threshold be at most [maxDays] days (so that its
    conversion to nanoseconds does not wrap around), and let [now] be the
    reading of the clock the cutoff of [main] is computed from.  A pull
    request whose last update is at or after [now] minus the inactivity
    threshold, in days, causes no call, unless it carries the warning
    label: then the one call is the removal of that label.  The clock is
    not read again and nothing is sent.  This holds with and without the
    opt-out label. *)
Theorem active_only_removes_warning_label
    (uTL : string -> string) (uEF : string -> string -> bool) (W : World)
    (c : Config) (now : GoTime.Time) (pr : PullRequest) (s : State) :
  missingParameter c = false ->
  daysInactive c <= maxDays ->
  now - daysInactive c * day <= GetUpdatedAt pr ->
  let s' := snd (processPR uTL uEF W c (staleCutoffAt now (daysInactive c)) pr s) in
  let removal :=
    IssuesRemoveLabel (owner c) (repo c) (GetNumber pr) "stale-warning" in
  calls s' =
    calls s ++ (if hasLabel uEF pr "stale-warning"
                then [mkCall removal (answer W (calls s) removal)]
                else [])
  /\ clockReads s' = clockReads s.
Proof.
  intros Hok Hmax Hactive.
  destruct (missingParameter_false c Hok) as [Hpos _].
  apply processPR_active.
  rewrite staleCutoffAt_exact by lia.
  apply Z.ltb_ge. exact Hactive.
Qed.

(** Pull request #13 of the scenarios, updated two days ago and still
    carrying the warning label: the label is removed. *)
Lemma active_only_removes_warning_label_witness :
  (missingParameter (sampleConfig 30 7) = false
   /\ daysInactive (sampleConfig 30 7) <= maxDays
   /\ june1 - daysInactive (sampleConfig 30 7) * day
      <= GetUpdatedAt (samplePR 13 may30 ["stale-warning"]))
  /\ calls (snd (processPR identityLower neverFold (calmWorld june1)
                           (sampleConfig 30 7) (staleCutoffAt june1 30)
                           (samplePR 13 may30 ["stale-warning"]) readyState))
     = [mkCall (IssuesRemoveLabel "octo" "hello" 13 "stale-warning") None].
Proof.
  split.
  - repeat split; vm_compute; congruence.
  - exact (proj1 (active_only_removes_warning_label
                    identityLower neverFold (calmWorld june1)
                    (sampleConfig 30 7) june1
                    (samplePR 13 may30 ["stale-warning"]) readyState
                    eq_refl ltac:(vm_compute; discriminate)
                    ltac:(vm_compute; discriminate))).
Defined.

(** *** The recipient resolver *)

(** The two examples of the resolver: a public email is used as it is, and
    the handle [Bob] gives [bob@example.com]. *)
Example resolver_examples :
  fst (getEmailFromGitHubUser identityLower (Some alice) readyState) = "a@b.com"
  /\ fst (getEmailFromGitHubUser identityLower (Some bob) readyState)
     = "bob@example.com".
Proof. split; reflexivity. Qed.

(** C5.  The code at an author without handle and without public email,
    with the fallback domain [example.com]: the resolver does not return
    the empty string but [@example.com], so the callers do not skip the
    send.  [warnPRAuthor] and [notifyPRClosure] each send their notice to
    [@example.com] and print no diagnostic, and the stale pull request of
    that author is warned there and then given the warning label.  The
    same holds when the pull request has no author at all.  The skip the
    callers have for an empty address, and its diagnostic, are reached only
    with an address that the resolver never returns. *)
Theorem empty_handle_is_still_mailed :
  let pr := prOf ghost 16 april1 [] in
  let diagnostic :=
    Sprintf ["Email could not be determined for user "; ""; newline] in
  let warning :=
    mkCall (SendEmail "@example.com" (warningSubject pr) (warningBody pr)
                      "smtp.example.com" 587 "bot@example.com" "secret") None in
  let closure :=
    mkCall (SendEmail "@example.com" (closureSubject pr) (closureBody pr)
                      "smtp.example.com" 587 "bot@example.com" "secret") None in
  let w := warnPRAuthor identityLower (calmWorld june1) pr
             "smtp.example.com" 587 "bot@example.com" "secret" readyState in
  let n := notifyPRClosure identityLower (calmWorld june1) pr
             "smtp.example.com" 587 "bot@example.com" "secret" readyState in
  GetLogin (GetUser pr) = "" /\ GetEmail (GetUser pr) = ""
  /\ fst (getEmailFromGitHubUser identityLower (GetUser pr) readyState)
     = "@example.com"
  /\ fst (getEmailFromGitHubUser identityLower None readyState) = "@example.com"
  /\ calls (snd w) = [warning] /\ ~ In diagnostic (stdout (snd w))
  /\ calls (snd n) = [closure] /\ ~ In diagnostic (stdout (snd n))
  /\ calls (snd (processPR identityLower neverFold (calmWorld june1)
                           (sampleConfig 30 7) (staleCutoffAt june1 30) pr
                           readyState))
     = [warning;
        mkCall (IssuesAddLabels "octo" "hello" 16 ["stale-warning"]) None]
  /\ fst (warnPRAuthorTo (calmWorld june1) pr ""
                         "smtp.example.com" 587 "bot@example.com" "secret"
                         readyState) = None
  /\ calls (snd (warnPRAuthorTo (calmWorld june1) pr ""
                                "smtp.example.com" 587 "bot@example.com" "secret"
                                readyState)) = []
  /\ In diagnostic
        (stdout (snd (warnPRAuthorTo (calmWorld june1) pr ""
                                     "smtp.example.com" 587 "bot@example.com"
                                     "secret" readyState))).
Proof.
  cbv zeta. repeat split; try reflexivity.
  - vm_compute. intuition discriminate.
  - vm_compute. intuition discriminate.
  - vm_compute. tauto.
Qed.

(** *** Startup *)

Lemma missingParameter_true (c : Config) :
  githubToken c = "" \/ githubBaseURL c = "" \/ owner c = "" \/ repo c = ""
  \/ smtpUser c = "" \/ smtpPassword c = ""
  \/ daysInactive c <= 0 \/ warningPeriod c <= 0 ->
  missingParameter c = true.
Proof.
  unfold missingParameter.
  intros [H | [H | [H | [H | [H | [H | [H | H]]]]]]];
    try (apply String.eqb_eq in H); try (apply Z.leb_le in H);
    rewrite H; repeat rewrite orb_true_r; reflexivity.
Qed.

(** C6.  When the token, the base URL, the owner, the repository, the SMTP
    user or the SMTP password is empty, or the inactivity threshold or the
    warning period is not positive, [main] ends in [log.Fatal] with the
    missing-parameter message; up to then it has made no remote call and
    has not read the clock. *)
Theorem startup_refuses_incomplete_configuration
    (uTL : string -> string) (uEF : string -> string -> bool) (W : World)
    (fuel : nat) (Getenv : string -> string) (flags : Flags) (s : State) :
  let c := parseFlags Getenv flags in
  githubToken c = "" \/ githubBaseURL c = "" \/ owner c = "" \/ repo c = ""
  \/ smtpUser c = "" \/ smtpPassword c = ""
  \/ daysInactive c <= 0 \/ warningPeriod c <= 0 ->
  let r := main uTL uEF W fuel Getenv flags s in
  fst r = Fatal missingParameterMessage
  /\ calls (snd r) = calls s
  /\ clockReads (snd r) = clockReads s.
Proof.
  intros c H. apply missingParameter_true in H.
  unfold main, run, printBanner, setFallbackEmailDomain, bind, Printf, ret.
  cbn [fst snd]. fold c. rewrite H. cbn. auto.
Qed.

(** With [DAYS_INACTIVE=thirty] in the environment and no flag, the
    threshold is 0 and the program refuses to start. *)
Lemma startup_refuses_incomplete_configuration_witness :
  fst (main identityLower neverFold (calmWorld june1) 5 sampleEnv noFlags
            initialState)
  = Fatal missingParameterMessage.
Proof.
  exact (proj1 (startup_refuses_incomplete_configuration
                  identityLower neverFold (calmWorld june1) 5 sampleEnv noFlags
                  initialState (or_introl eq_refl))).
Defined.

(** What [Atoi] accepts and what it refuses. *)
Example Atoi_examples :
  Strconv.Atoi "30" = Some 30
  /\ Strconv.Atoi "-5" = Some (-5)
  /\ Strconv.Atoi "+7" = Some 7
  /\ Strconv.Atoi "9223372036854775807" = Some Strconv.maxInt
  /\ Strconv.Atoi "9223372036854775808" = None
  /\ Strconv.Atoi "thirty" = None
  /\ Strconv.Atoi "7d" = None
  /\ Strconv.Atoi "1_000" = None
  /\ Strconv.Atoi " 30" = None
  /\ Strconv.Atoi "-" = None
  /\ Strconv.Atoi "" = None.
Proof. repeat split; reflexivity. Qed.

Lemma envInt_unparsed (Getenv : string -> string) (name : string) (d : Z) :
  Strconv.Atoi (Getenv name) = None -> envInt Getenv name d = d.
Proof.
  intros H. unfold envInt. rewrite H.
  destruct (String.eqb (Getenv name) ""); reflexivity.
Qed.

(** C10.  A value of [DAYS_INACTIVE], [WARNING_PERIOD] or [SMTP_PORT] that
    [Atoi] does not accept leaves the default at 0, 0 and 587: computing
    the defaults prints nothing and ends nothing.  The sanity check does
    not look at the SMTP port: replacing the port by any integer leaves its
    outcome as it is, so a configuration that passes it passes it with port
    0 and with a negative port. *)
Theorem unparsed_settings_fall_back_and_port_is_unchecked :
  (forall Getenv : string -> string,
      (Strconv.Atoi (Getenv "DAYS_INACTIVE") = None ->
       defaultDaysInactive Getenv = 0)
      /\ (Strconv.Atoi (Getenv "WARNING_PERIOD") = None ->
          defaultWarningPeriod Getenv = 0)
      /\ (Strconv.Atoi (Getenv "SMTP_PORT") = None ->
          defaultSMTPPort Getenv = 587))
  /\ (forall (c : Config) (p : Z),
         missingParameter (withPort c p) = missingParameter c)
  /\ missingParameter (withPort (sampleConfig 30 7) 0) = false
  /\ missingParameter (withPort (sampleConfig 30 7) (-1)) = false.
Proof.
  split; [ | split; [ | split; reflexivity]].
  - intros Getenv. repeat split; apply envInt_unparsed.
  - intros c p. reflexivity.
Qed.

(** The environment [DAYS_INACTIVE=thirty], [WARNING_PERIOD=7d],
    [SMTP_PORT=smtp] gives the defaults 0, 0 and 587; with the other
    settings given as flags and port [-1] the run starts and ends
    normally. *)
Example junk_environment_is_not_reported :
  defaultDaysInactive sampleEnv = 0
  /\ defaultWarningPeriod sampleEnv = 0
  /\ defaultSMTPPort sampleEnv = 587
  /\ fst (main identityLower neverFold (calmWorld june1) 5 sampleEnv
               (mkFlags (Some "token") (Some "https://api.github.com/")
                        (Some "octo") (Some "hello") (Some 30) (Some 7)
                        (Some "smtp.example.com") (Some (-1))
                        (Some "bot@example.com") (Some "secret") None)
               initialState)
     = Returned.
Proof. repeat split; reflexivity. Qed.

(** *** Label names *)

Lemma all_bytes (a : ascii) : In a allBytes.
Proof.
  rewrite <- (ascii_nat_embedding a). unfold allBytes.
  apply in_map, in_seq. pose proof (nat_ascii_bounded a). lia.
Qed.

Lemma foldStepComplete_all (a b : ascii) : foldStepComplete a b = true.
Proof.
  assert (H : forallb (fun x => forallb (foldStepComplete x) allBytes) allBytes
              = true) by (vm_compute; reflexivity).
  rewrite forallb_forall in H. specialize (H a (all_bytes a)).
  rewrite forallb_forall in H. exact (H b (all_bytes b)).
Qed.

Lemma sameLetter_foldStep (a b : ascii) :
  sameLetter a b = true ->
  N.ltb (GoStrings.byte b) GoStrings.RuneSelf = true ->
  foldStep a b = true.
Proof.
  intros Hs Hb. pose proof (foldStepComplete_all a b) as H.
  unfold foldStepComplete in H. rewrite Hs, Hb in H. exact H.
Qed.

(** On an ASCII name the byte loop of [EqualFold] never reaches the rune
    loop and accepts every name that differs only in letter case. *)
Lemma EqualFold_only_case_differs (uEF : string -> string -> bool) :
  forall s t : string,
    GoStrings.isASCII t = true ->
    onlyCaseDiffers s t = true ->
    GoStrings.EqualFold uEF s t = true.
Proof.
  induction s as [ | a s IH]; intros [ | b t] Hascii Hcase;
    try reflexivity; try discriminate Hcase.
  cbn [GoStrings.isASCII] in Hascii. cbn [onlyCaseDiffers] in Hcase.
  apply andb_true_iff in Hascii as [Hb Hascii].
  apply andb_true_iff in Hcase as [Hab Hcase].
  pose proof (sameLetter_foldStep a b Hab Hb) as Hstep.
  unfold foldStep in Hstep. cbv zeta in Hstep.
  apply andb_true_iff in Hstep as [Hlow Hpair].
  apply negb_true_iff in Hlow.
  cbn [GoStrings.EqualFold]. rewrite Hlow.
  destruct (N.eqb (GoStrings.byte b) (GoStrings.byte a)); [now apply IH | ].
  cbn [orb] in Hpair. cbv zeta. rewrite Hpair. now apply IH.
Qed.

(** C7.  A pull request with a label whose name differs from [do not stale]
    or from [stale-warning] only in letter case is taken, by [hasLabel], to
    carry that label. *)
Theorem labels_match_regardless_of_case
    (uEF : string -> string -> bool) (pr : PullRequest)
    (name sentinel : string) :
  sentinel = "do not stale" \/ sentinel = "stale-warning" ->
  In name (map GetName (Labels pr)) ->
  onlyCaseDiffers name sentinel = true ->
  hasLabel uEF pr sentinel = true.
Proof.
  intros Hsentinel Hin Hcase. unfold hasLabel.
  apply existsb_exists. apply in_map_iff in Hin as [label [Hname Hin]].
  exists label. split; [exact Hin | ]. rewrite Hname.
  apply EqualFold_only_case_differs; [ | exact Hcase].
  destruct Hsentinel as [-> | ->]; reflexivity.
Qed.

(** A pull request labelled [Do Not Stale] and [STALE-WARNING] carries both
    sentinel labels. *)
Lemma labels_match_regardless_of_case_witness :
  hasLabel neverFold (samplePR 14 april1 ["Do Not Stale"; "STALE-WARNING"])
           "do not stale" = true
  /\ hasLabel neverFold (samplePR 14 april1 ["Do Not Stale"; "STALE-WARNING"])
              "stale-warning" = true.
Proof.
  split.
  - apply (labels_match_regardless_of_case neverFold
             (samplePR 14 april1 ["Do Not Stale"; "STALE-WARNING"])
             "Do Not Stale" "do not stale");
      [left; reflexivity | left; reflexivity | reflexivity].
  - apply (labels_match_regardless_of_case neverFold
             (samplePR 14 april1 ["Do Not Stale"; "STALE-WARNING"])
             "STALE-WARNING" "stale-warning");
      [right; reflexivity | right; left; reflexivity | reflexivity].
Defined.

(** [EqualFold] on the names of the examples, and on names that are not
    the sentinel in another case. *)
Example EqualFold_examples :
  GoStrings.EqualFold neverFold "Do Not Stale" "do not stale" = true
  /\ GoStrings.EqualFold neverFold "stale-warning" "STALE-WARNING" = true
  /\ GoStrings.EqualFold neverFold "stale_warning" "stale-warning" = false
  /\ GoStrings.EqualFold neverFold "stale-warning " "stale-warning" = false
  /\ GoStrings.EqualFold neverFold "@tale-warning" "`tale-warning" = false.
Proof. repeat split; reflexivity. Qed.

(** *** Thresholds as durations *)

(** C9, as stated, fails in two ways.  First, a threshold of 106752 days
    passes the startup check but its conversion to an [int64] of
    nanoseconds wraps around to a negative duration; the cutoff then lies
    in the future, and a pull request updated an hour ago is judged stale
    while, with a warning period of one day, it is not closed.  Second, the
    elapsed time is read off the clock again: when the clock was set back
    in between, a pull request judged stale against a threshold of two days
    is within a warning period of two days. *)
Lemma grace_can_outlast_inactivity_threshold :
  (let c := sampleConfig 106752 1 in
   let pr := samplePR 17 (june1 - hour) ["stale-warning"] in
   let cutoff := staleCutoffAt june1 (daysInactive c) in
   missingParameter c = false
   /\ warningPeriod c <= daysInactive c
   /\ GoTime.daysDuration (daysInactive c) < 0
   /\ hasLabel neverFold pr "do not stale" = false
   /\ GoTime.Before (GetUpdatedAt pr) cutoff = true
   /\ hasLabel neverFold pr "stale-warning" = true
   /\ calls (snd (processPR identityLower neverFold (calmWorld june1) c cutoff
                            pr readyState)) = [])
  /\ (let c := sampleConfig 2 2 in
      let pr := samplePR 18 (june1 - 2 * day - hour) ["stale-warning"] in
      let s' := snd (processOpenPRs identityLower neverFold
                                    (setBackWorld june1) c [pr] readyState) in
      missingParameter c = false
      /\ warningPeriod c <= daysInactive c
      /\ In (Sprintf ["PR #"; "18"; " is stale."; newline]) (stdout s')
      /\ In (Sprintf ["PR #"; "18"; " is still within the warning period.";
                      newline]) (stdout s')
      /\ calls s' = []).
Proof.
  cbv zeta. split.
  - repeat split; try reflexivity. vm_compute. discriminate.
  - repeat split; try reflexivity; try (vm_compute; discriminate).
    + vm_compute. tauto.
    + vm_compute. tauto.
Qed.

(** C9, amended.  Let the configuration have passed the startup check, the
    inactivity threshold be at most [maxDays] (so that its conversion to
    nanoseconds does not wrap around), and the clock, when [time.Since]
    reads it, not be behind the reading the cutoff was computed from.  Then
    for every pull request judged stale while carrying the warning label,
    whenever the warning period is at most the inactivity threshold, the
    elapsed time exceeds the warning period and the close is attempted. *)
Theorem grace_within_threshold_always_closes
    (uTL : string -> string) (uEF : string -> string -> bool) (W : World)
    (c : Config) (now : GoTime.Time) (pr : PullRequest) (s : State) :
  missingParameter c = false ->
  warningPeriod c <= daysInactive c ->
  daysInactive c <= maxDays ->
  now <= wallClock W (clockReads s) ->
  hasLabel uEF pr "do not stale" = false ->
  GoTime.Before (GetUpdatedAt pr) (staleCutoffAt now (daysInactive c)) = true ->
  hasLabel uEF pr "stale-warning" = true ->
  let s' := snd (processPR uTL uEF W c (staleCutoffAt now (daysInactive c)) pr s) in
  let close := PullRequestsEdit (owner c) (repo c) (GetNumber pr) "closed" in
  (GoTime.daysDuration (warningPeriod c)
   <? GoTime.Sub (wallClock W (clockReads s)) (GetUpdatedAt pr)) = true
  /\ exists rest,
       calls s' = calls s ++ mkCall close (answer W (calls s) close) :: rest.
Proof.
  intros Hok Hle Hmax Hclock Hopt Hstale Hwarn.
  destruct (missingParameter_false c Hok) as [Hd Hw].
  assert (Hlate : (GoTime.daysDuration (warningPeriod c)
                   <? GoTime.Sub (wallClock W (clockReads s)) (GetUpdatedAt pr))
                  = true).
  { rewrite staleCutoffAt_exact in Hstale by lia.
    apply Z.ltb_lt in Hstale. apply Z.ltb_lt.
    rewrite daysDuration_exact by lia.
    unfold GoTime.Sub, GoTime.maxDuration, GoTime.minDuration.
    unfold maxDays, day in *.
    repeat match goal with
           | |- context [?a <? ?b] => destruct (Z.ltb_spec a b)
           end; lia. }
  split; [exact Hlate | ].
  pose proof (processPR_stale_warned uTL uEF W c _ pr s Hopt Hstale Hwarn) as H.
  cbv zeta in H. rewrite Hlate in H.
  destruct (answer W (calls s) _) eqn:E; rewrite H; eexists; reflexivity.
Qed.

(** Pull request #12 of the scenarios, with the warning period set to the
    inactivity threshold of 30 days. *)
Lemma grace_within_threshold_always_closes_witness :
  (GoTime.daysDuration 30 <? GoTime.Sub june1 april1) = true
  /\ exists rest,
       calls (snd (processPR identityLower neverFold (calmWorld june1)
                             (sampleConfig 30 30) (staleCutoffAt june1 30)
                             (samplePR 12 april1 ["stale-warning"]) readyState))
       = mkCall (PullRequestsEdit "octo" "hello" 12 "closed") None :: rest.
Proof.
  apply (grace_within_threshold_always_closes identityLower neverFold
           (calmWorld june1) (sampleConfig 30 30) june1
           (samplePR 12 april1 ["stale-warning"]) readyState);
    try reflexivity; vm_compute; discriminate.
Defined.

(** *** Failures do not stop the run *)

Lemma append_assoc (a b c : string) :
  ((a ++ b) ++ c)%string = (a ++ (b ++ c))%string.
Proof. induction a as [ | x a IH]; cbn; [reflexivity | now rewrite IH]. Qed.

Lemma reportsError_intro (what n e : string) :
  reportsError e (Sprintf [("Error " ++ what)%string; n; ": "; e; newline]).
Proof.
  exists (what ++ n)%string. unfold Sprintf. cbn.
  now rewrite append_assoc.
Qed.

Lemma skipn_length_app {A} (l l' : list A) :
  skipn (List.length l) (l ++ l') = l'.
Proof.
  rewrite skipn_app, skipn_all, Nat.sub_diag. reflexivity.
Qed.

Ltac split_branches :=
  repeat (first
    [ match goal with
      | |- context [if ?b then _ else _] => destruct b eqn:?
      end
    | match goal with
      | |- context [match answer ?w ?h ?o with _ => _ end] =>
          destruct (answer w h o) eqn:?
      end ];
    cbn [fst snd calls stdout clockReads fallbackEmailDomain]).

Ltac report_error :=
  first [ apply (reportsError_intro "removing label from PR #")
        | apply (reportsError_intro "closing PR #")
        | apply (reportsError_intro "sending closure email for PR #")
        | apply (reportsError_intro "sending email for PR #")
        | apply (reportsError_intro "adding label to PR #") ].

(** Picks a disjunct of [x1 = ?l \/ x2 = ?l \/ ...]; on backtracking, the
    next one. *)
Ltac pick_line := (left; reflexivity) + (right; pick_line).

(** What processing one pull request adds to the output and to the calls,
    in every world: the header is printed, no call is a read-only one, and
    each failed call has its error line. *)
Lemma processPR_effects
    (uTL : string -> string) (uEF : string -> string -> bool) (W : World)
    (c : Config) (staleCutoff : GoTime.Time) (pr : PullRequest) (s : State) :
  let s' := snd (processPR uTL uEF W c staleCutoff pr s) in
  exists out new,
    stdout s' = stdout s ++ out
    /\ calls s' = calls s ++ new
    /\ In (processingHeader pr) out
    /\ (forall k, In k new -> isReadOnly (callOp k) = false)
    /\ (forall k e, In k new -> callErr k = Some e ->
                    exists line, In line out /\ reportsError e line).
Proof.
  cbv zeta. run_body. split_branches.
  all: repeat rewrite <- app_assoc.
  all: eexists; eexists.
  all: split; [reflexivity | ].
  all: split; [first [reflexivity | symmetry; apply app_nil_r] | ].
  all: split; [right; left; reflexivity | ].
  all: split.
  all: cbn [In app]; intros.
  all: repeat match goal with
              | H : _ \/ _ |- _ => destruct H
              | H : False |- _ => destruct H
              end; subst; cbn [callOp callErr isReadOnly] in *;
       try reflexivity; try discriminate.
  all: match goal with
       | H : Some _ = Some _ |- _ => injection H as <-
       end.
  all: eexists; split; [pick_line | report_error].
Qed.

(** The loop goes on with whatever state the body leaves. *)
Lemma forEach_cons {A} (x : A) (l : list A) (body : A -> M unit) (s : State) :
  forEach (x :: l) body s = forEach l body (snd (body x s)).
Proof.
  cbn [forEach]. unfold bind. destruct (body x s) as [[] s1]. reflexivity.
Qed.

Lemma forEach_app {A} (l1 l2 : list A) (body : A -> M unit) (s : State) :
  forEach (l1 ++ l2) body s = forEach l2 body (snd (forEach l1 body s)).
Proof.
  revert s. induction l1 as [ | x l1 IH]; intros s.
  - reflexivity.
  - cbn [app]. rewrite !forEach_cons. apply IH.
Qed.

Lemma processOpenPRs_cons
    (uTL : string -> string) (uEF : string -> string -> bool) (W : World)
    (c : Config) (pr : PullRequest) (prs : list PullRequest) (s : State) :
  processOpenPRs uTL uEF W c (pr :: prs) s =
  (Returned,
   snd (forEach (pr :: prs)
          (processPR uTL uEF W c
             (staleCutoffAt (wallClock W (clockReads s)) (daysInactive c)))
          (mkState (fallbackEmailDomain s)
             (stdout s ++
              [Sprintf ["Found "; fmtd (Z.of_nat (List.length (pr :: prs)));
                        " open PR(s)."; newline];
               Sprintf [rule; newline]])
             (calls s) (S (clockReads s))))).
Proof.
  unfold processOpenPRs, bind, Printf, timeNow, ret.
  cbn [fst snd calls stdout clockReads fallbackEmailDomain].
  rewrite <- app_assoc. cbn [app].
  match goal with
  | |- context [forEach ?l ?body ?s0] => destruct (forEach l body s0) as [[] s1]
  end.
  reflexivity.
Qed.

Lemma forEach_processPR_effects
    (uTL : string -> string) (uEF : string -> string -> bool) (W : World)
    (c : Config) (staleCutoff : GoTime.Time) (prs : list PullRequest) :
  forall s : State,
    let s' := snd (forEach prs (processPR uTL uEF W c staleCutoff) s) in
    exists out new,
      stdout s' = stdout s ++ out
      /\ calls s' = calls s ++ new
      /\ (forall pr, In pr prs -> In (processingHeader pr) out)
      /\ (forall k, In k new -> isReadOnly (callOp k) = false)
      /\ (forall k e, In k new -> callErr k = Some e ->
                      exists line, In line out /\ reportsError e line).
Proof.
  induction prs as [ | pr prs IH]; intros s; cbv zeta.
  - exists [], []. cbn. rewrite !app_nil_r.
    repeat split; auto; intros; contradiction.
  - rewrite forEach_cons.
    destruct (processPR_effects uTL uEF W c staleCutoff pr s)
      as (out1 & new1 & Hout1 & Hnew1 & Hhead & Hmut1 & Herr1).
    set (s1 := snd (processPR uTL uEF W c staleCutoff pr s)) in *.
    destruct (IH s1) as (out2 & new2 & Hout2 & Hnew2 & Hheads & Hmut2 & Herr2).
    exists (out1 ++ out2), (new1 ++ new2).
    rewrite Hout2, Hnew2, Hout1, Hnew1, <- !app_assoc.
    repeat split; auto.
    + intros pr' [<- | Hin]; apply in_or_app; auto.
    + intros k Hin. apply in_app_or in Hin as [Hin | Hin]; auto.
    + intros k e Hin He. apply in_app_or in Hin as [Hin | Hin].
      * destruct (Herr1 k e Hin He) as (line & Hline & Hrep).
        exists line. split; [apply in_or_app; auto | exact Hrep].
      * destruct (Herr2 k e Hin He) as (line & Hline & Hrep).
        exists line. split; [apply in_or_app; auto | exact Hrep].
Qed.

(** Once the list is fetched, the run always returns normally, whatever
    fails on the way. *)
Lemma processOpenPRs_effects
    (uTL : string -> string) (uEF : string -> string -> bool) (W : World)
    (c : Config) (prs : list PullRequest) (s : State) :
  let r := processOpenPRs uTL uEF W c prs s in
  fst r = Returned
  /\ exists out new,
       stdout (snd r) = stdout s ++ out
       /\ calls (snd r) = calls s ++ new
       /\ (forall pr, In pr prs -> In (processingHeader pr) out)
       /\ (forall k, In k new -> isReadOnly (callOp k) = false)
       /\ (forall k e, In k new -> callErr k = Some e ->
                       exists line, In line out /\ reportsError e line).
Proof.
  cbv zeta. destruct prs as [ | pr prs].
  - unfold processOpenPRs, bind, Printf, ret.
    cbn [fst snd calls stdout clockReads fallbackEmailDomain].
    split; [reflexivity | ]. rewrite <- !app_assoc.
    eexists. exists []. split; [reflexivity | ].
    split; [symmetry; apply app_nil_r | ].
    repeat split; intros; contradiction.
  - rewrite processOpenPRs_cons. cbn [fst snd].
    match goal with
    | |- context [forEach ?l ?body ?s0] =>
        destruct (forEach_processPR_effects uTL uEF W c
                    (staleCutoffAt (wallClock W (clockReads s)) (daysInactive c))
                    l s0)
          as (out & new & Hout & Hnew & Hheads & Hmut & Herr)
    end.
    cbn [fst snd calls stdout] in *. split; [reflexivity | ].
    exists ([Sprintf ["Found ";
                     fmtd (Z.of_nat (List.length (pr :: prs)));
                     " open PR(s)."; newline];
             Sprintf [rule; newline]] ++ out), new.
    rewrite Hout, Hnew. cbn [app]. rewrite <- !app_assoc. cbn [app].
    repeat split; auto.
    + intros pr' Hin. right; right. auto.
    + intros k e Hin He. destruct (Herr k e Hin He) as (line & Hline & Hrep).
      exists line. split; [right; right; exact Hline | exact Hrep].
Qed.

(** The calls of the pagination loop: all of them listings; when the loop
    ends in an error it is the error of its one failed call, otherwise no
    call has failed. *)
Lemma getOpenPRsFrom_calls (W : World) (ow rp : string) (fuel : nat) :
  forall (page : Z) (allPRs : list PullRequest) (s : State),
    let r := getOpenPRsFrom W fuel ow rp page allPRs s in
    exists new,
      calls (snd r) = calls s ++ new
      /\ (forall k, In k new -> isReadOnly (callOp k) = true)
      /\ match fst r with
         | Some (inl msg) =>
             exists e, msg = Sprintf ["error listing PRs: "; e]
                       /\ forall k e', In k new -> callErr k = Some e' -> e' = e
         | _ => forall k, In k new -> callErr k = None
         end.
Proof.
  induction fuel as [ | fuel IH]; intros page allPRs s; cbv zeta.
  - exists []. cbn. rewrite app_nil_r. repeat split; intros; contradiction.
  - cbn [getOpenPRsFrom].
    unfold bind, Printf, pullRequestsList, remote, ret.
    cbn [fst snd calls stdout clockReads fallbackEmailDomain].
    destruct (answer W (calls s) (PullRequestsList ow rp page 100)) as [e | ] eqn:E.
    + cbn [fst snd calls]. eexists. split; [reflexivity | ]. split.
      * intros k [<- | []]. reflexivity.
      * exists e. split; [reflexivity | ].
        intros k e' [<- | []] He. now injection He as <-.
    + destruct (listedPage W (calls s) page) as [prs nextPage].
      destruct (nextPage =? 0).
      * cbn [fst snd calls]. eexists. split; [reflexivity | ]. split.
        -- intros k [<- | []]. reflexivity.
        -- intros k [<- | []]. reflexivity.
      * match goal with
        | |- context [getOpenPRsFrom W fuel ow rp ?p ?a ?s0] =>
            destruct (IH p a s0) as (new & Hnew & Hro & Hres);
            destruct (getOpenPRsFrom W fuel ow rp p a s0) as [r s1]
        end.
        cbn [fst snd calls] in *.
        exists (mkCall (PullRequestsList ow rp page 100) None :: new).
        rewrite Hnew, <- app_assoc. split; [reflexivity | ]. split.
        -- intros k [<- | Hin]; [reflexivity | auto].
        -- destruct r as [[msg | prs'] | ].
           ++ destruct Hres as (e & Hmsg & He). exists e. split; [exact Hmsg | ].
              intros k e' [<- | Hin] Hk; [discriminate Hk | eauto].
           ++ intros k [<- | Hin]; [reflexivity | auto].
           ++ intros k [<- | Hin]; [reflexivity | auto].
Qed.

Lemma callsSince_app (s s' : State) (new : list Call) :
  calls s' = calls s ++ new -> callsSince s s' = new.
Proof. intros H. unfold callsSince. rewrite H. apply skipn_length_app. Qed.



Lemma main_after_banner
    (uTL : string -> string) (uEF : string -> string -> bool) (W : World)
    (fuel : nat) (Getenv : string -> string) (flags : Flags) (s : State) :
  main uTL uEF W fuel Getenv flags s =
  run uTL uEF W fuel (parseFlags Getenv flags)
      (mkState (fallbackEmailDomain s) (stdout s ++ [Sprintf [banner; newline]])
               (calls s) (clockReads s)).
Proof. reflexivity. Qed.


(** In a world where every call fails, three pull requests are still all
    processed and the run returns: the stale one gets its (failed) warning,
    the warned one its (failed) close, the active one its (failed) label
    removal. *)
Example every_call_fails_and_the_run_goes_on :
  let r := processOpenPRs identityLower neverFold (brokenWorld june1)
             (sampleConfig 30 7)
             [samplePR 12 april1 []; samplePR 19 april1 ["stale-warning"];
              samplePR 13 may30 ["stale-warning"]]
             readyState in
  fst r = Returned
  /\ map callOp (calls (snd r))
     = [SendEmail "bob@example.com"
                  (warningSubject (samplePR 12 april1 []))
                  (warningBody (samplePR 12 april1 []))
                  "smtp.example.com" 587 "bot@example.com" "secret";
        PullRequestsEdit "octo" "hello" 19 "closed";
        IssuesRemoveLabel "octo" "hello" 13 "stale-warning"]
  /\ map callErr (calls (snd r))
     = [Some "connection refused"; Some "connection refused";
        Some "connection refused"].
Proof. cbv zeta. repeat split; reflexivity. Qed.

(** The first page holds a stale pull request, the listing of the second
    page fails: the run is over, and the pull request of the first page
    was not touched. *)
Example listing_failure_is_fatal :
  let r := main identityLower neverFold
             (secondPageFailsWorld june1 [samplePR 12 april1 []]) 5
             (fun _ => "") sampleFlags initialState in
  fst r = Fatal "Error fetching PRs: error listing PRs: 502 Bad Gateway"
  /\ calls (snd r)
     = [mkCall UsersGet None;
        mkCall (PullRequestsList "octo" "hello" 0 100) None;
        mkCall (PullRequestsList "octo" "hello" 2 100) (Some "502 Bad Gateway")].
Proof. cbv zeta. split; reflexivity. Qed.

(** *** Further properties *)

(** X1.  The resolver never returns the empty string, so [warnPRAuthor]
    and [notifyPRClosure] never take their skip branch: each of them makes
    exactly one call, the send to the resolved address. *)
Theorem notices_are_always_sent
    (uTL : string -> string) (W : World) (pr : PullRequest)
    (server : string) (port : Z) (user password : string) (s : State) :
  recipient uTL pr s <> ""
  /\ callsSince s (snd (warnPRAuthor uTL W pr server port user password s))
     = (let o := SendEmail (recipient uTL pr s) (warningSubject pr)
                           (warningBody pr) server port user password in
        [mkCall o (answer W (calls s) o)])
  /\ callsSince s (snd (notifyPRClosure uTL W pr server port user password s))
     = (let o := SendEmail (recipient uTL pr s) (closureSubject pr)
                           (closureBody pr) server port user password in
        [mkCall o (answer W (calls s) o)]).
Proof.
  cbv zeta.
  destruct (getEmailFromGitHubUser_spec uTL (GetUser pr) s) as (_ & Hc & _).
  pose proof (recipient_not_empty uTL pr s) as Hne.
  split; [intros E; rewrite E in Hne; discriminate Hne | ].
  unfold recipient in *.
  split; apply callsSince_app.
  - unfold warnPRAuthor, warnPRAuthorTo, bind.
    destruct (getEmailFromGitHubUser uTL (GetUser pr) s) as [a s1].
    cbn [fst snd] in *. rewrite Hne.
    unfold Printf, sendEmail, remote. crunch. now rewrite Hc.
  - unfold notifyPRClosure, notifyPRClosureTo, bind.
    destruct (getEmailFromGitHubUser uTL (GetUser pr) s) as [a s1].
    cbn [fst snd] in *. rewrite Hne.
    unfold Printf, sendEmail, remote. crunch. now rewrite Hc.
Qed.

(** X2.  For a threshold of 1 to [maxDays] days the staleness test of
    [main] is the comparison of the last update with [now] minus that many days. *)
Theorem staleness_test_exact (now updated : GoTime.Time) (days : Z) :
  0 < days <= maxDays ->
  GoTime.Before updated (staleCutoffAt now days) = true
  <-> updated < now - days * day.
Proof.
  intros H. rewrite staleCutoffAt_exact by lia.
  unfold GoTime.Before. apply Z.ltb_lt.
Qed.

Lemma staleness_test_exact_witness :
  GoTime.Before april1 (staleCutoffAt june1 30) = true
  <-> april1 < june1 - 30 * day.
Proof.
  apply (staleness_test_exact june1 april1 30). unfold maxDays. lia.
Defined.

(** X3.  One day more and the conversion wraps around: the duration of 106752
    days is negative, the cutoff lies some 292 years after [now], and a
    pull request updated at any time before that is judged stale. *)
Theorem threshold_wraps_beyond_maxDays :
  GoTime.daysDuration (maxDays + 1) = - 9223371273709551616
  /\ forall now updated : GoTime.Time,
       updated < now + 9223371273709551616 ->
       GoTime.Before updated (staleCutoffAt now (maxDays + 1)) = true.
Proof.
  split; [reflexivity | ].
  intros now updated H. unfold GoTime.Before. apply Z.ltb_lt.
  change (staleCutoffAt now (maxDays + 1)) with (now + 9223371273709551616).
  exact H.
Qed.

Lemma wrap64_split (z : Z) :
  exists q, GoTime.wrap64 z = z - 2 ^ 64 * q
            /\ - 2 ^ 63 <= GoTime.wrap64 z < 2 ^ 63.
Proof.
  unfold GoTime.wrap64.
  pose proof (Z.div_mod (z + 2 ^ 63) (2 ^ 64) ltac:(lia)) as H.
  pose proof (Z.mod_pos_bound (z + 2 ^ 63) (2 ^ 64) ltac:(lia)) as B.
  exists ((z + 2 ^ 63) / 2 ^ 64). lia.
Qed.

(** X22.  The staleness test of [main] never misses a stale pull request:
    for every positive threshold that an [int64] holds, also one whose
    conversion to nanoseconds wraps around, a pull request last updated
    before [now] minus that many days is before the cutoff that [main]
    computes. *)
Theorem stale_by_days_is_judged_stale (now updated : GoTime.Time) (days : Z) :
  0 < days < 2 ^ 63 ->
  updated < now - days * day ->
  GoTime.Before updated (staleCutoffAt now days) = true.
Proof.
  intros Hd Hs.
  unfold GoTime.Before, staleCutoffAt, GoTime.Add, GoTime.neg,
    GoTime.daysDuration, GoTime.mul, GoTime.Hour.
  rewrite (wrap64_in_range days) by lia.
  destruct (wrap64_split (days * 24)) as (q1 & E1 & B1).
  destruct (wrap64_split (GoTime.wrap64 (days * 24) * 3600000000000))
    as (q2 & E2 & B2).
  destruct (wrap64_split
              (- GoTime.wrap64 (GoTime.wrap64 (days * 24) * 3600000000000)))
    as (q3 & E3 & B3).
  apply Z.ltb_lt. unfold day in *.
  set (a := GoTime.wrap64 (days * 24)) in *.
  set (b := GoTime.wrap64 (a * 3600000000000)) in *.
  set (n := GoTime.wrap64 (- b)) in *.
  lia.
Qed.

(** A threshold of 106752 days, whose conversion wraps around, and a pull
    request last updated 106753 days before June 1, 2024. *)
Lemma stale_by_days_is_judged_stale_witness :
  (0 < 106752 < 2 ^ 63 /\ june1 - 106753 * day < june1 - 106752 * day)
  /\ GoTime.Before (june1 - 106753 * day) (staleCutoffAt june1 106752) = true.
Proof.
  split.
  - unfold day. lia.
  - apply (stale_by_days_is_judged_stale june1 (june1 - 106753 * day) 106752);
      unfold day; lia.
Defined.

(** *** The SMTP dialogue *)

Ltac smtp_unfold :=
  unfold Smtp.sendEmail, Smtp.andThen, Smtp.defer, Smtp.attempt,
    Smtp.extension, Smtp.bytes, Smtp.Println, Smtp.step;
  cbn [fst snd Smtp.log Smtp.printed Smtp.From].

Ltac smtp_norm :=
  cbn [fst snd Smtp.log Smtp.printed Smtp.From];
  repeat rewrite <- app_assoc; cbn [app].

(** Splits on the answer to the next step of the body, in the order the
    steps are made; the answers to the deferred steps are left alone. *)
Ltac smtp_next :=
  match goal with
  | |- context [Smtp.fails ?v ?h (Smtp.Dial ?a ?b)] =>
      destruct (Smtp.fails v h (Smtp.Dial a b)) eqn:?
  | |- context [Smtp.fails ?v ?h (Smtp.NewClient ?a)] =>
      destruct (Smtp.fails v h (Smtp.NewClient a)) eqn:?
  | |- context [if Smtp.announces ?v ?h ?n then _ else _] =>
      destruct (Smtp.announces v h n) eqn:?
  | |- context [Smtp.fails ?v ?h (Smtp.StartTLS ?a ?b)] =>
      destruct (Smtp.fails v h (Smtp.StartTLS a b)) eqn:?
  | |- context [Smtp.fails ?v ?h (Smtp.Auth ?a ?b ?c ?d)] =>
      destruct (Smtp.fails v h (Smtp.Auth a b c d)) eqn:?
  | |- context [Smtp.fails ?v ?h (Smtp.Mail ?a)] =>
      destruct (Smtp.fails v h (Smtp.Mail a)) eqn:?
  | |- context [Smtp.fails ?v ?h (Smtp.Rcpt ?a)] =>
      destruct (Smtp.fails v h (Smtp.Rcpt a)) eqn:?
  | |- context [Smtp.fails ?v ?h Smtp.Data] =>
      destruct (Smtp.fails v h Smtp.Data) eqn:?
  | |- context [Smtp.fails ?v ?h (Smtp.Bytes ?a)] =>
      destruct (Smtp.fails v h (Smtp.Bytes a)) eqn:?
  | |- context [Smtp.fails ?v ?h (Smtp.Write ?a)] =>
      destruct (Smtp.fails v h (Smtp.Write a)) eqn:?
  | |- context [Smtp.fails ?v ?h Smtp.CloseWriter] =>
      destruct (Smtp.fails v h Smtp.CloseWriter) eqn:?
  end.

Ltac smtp_cases := smtp_unfold; repeat (smtp_next; smtp_norm); smtp_norm.

Ltac in_events := solve [cbn [In]; repeat first [left; reflexivity | right]].

Lemma sendEmail_result_reflects_body
    (srv : Smtp.Server) (toEmail subject body server : string) (port : Z)
    (user password : string) (s : Smtp.Session) :
  let r := Smtp.sendEmail srv toEmail subject body server port user password s in
  exists new,
    Smtp.log (snd r) = Smtp.log s ++ new
    /\ (fst r = None <->
        forall ev, In ev new -> Smtp.isDeferred (fst ev) = false ->
                   snd ev = None).
Proof.
  cbv zeta. smtp_cases.
  all: eexists; split; [reflexivity | ].
  all: split; [ intros Hr ev Hin Hd | intros H ].
  all: try discriminate Hr; try reflexivity.
  all: try (cbn [In] in Hin;
            repeat match goal with
                   | H : _ \/ _ |- _ => destruct H
                   | H : False |- _ => destruct H
                   end; subst; cbn [fst snd Smtp.isDeferred] in *;
            solve [reflexivity | discriminate]).
  all: exfalso;
    match goal with
    | H : forall ev, In ev ?l -> _ |- _ =>
        match l with
        | context [(?st, Some ?e)] =>
            assert (Hin : In (st, @Some error e) l) by in_events;
            specialize (H _ Hin eq_refl); discriminate H
        end
    end.
Qed.

(** X4.  [sendEmail] returns [nil] exactly when no step of its body
    failed: an error of the deferred [Quit] or of the deferred closing of
    the connection is never reported, and no failure of the body is
    swallowed. *)
Theorem sendEmail_nil_iff_body_succeeded
    (srv : Smtp.Server) (toEmail subject body server : string) (port : Z)
    (user password : string) (s : Smtp.Session) :
  let r := Smtp.sendEmail srv toEmail subject body server port user password s in
  exists new,
    Smtp.log (snd r) = Smtp.log s ++ new
    /\ (fst r = None <->
        forall ev, In ev new -> Smtp.isDeferred (fst ev) = false ->
                   snd ev = None).
Proof.
  exact (sendEmail_result_reflects_body srv toEmail subject body server
           port user password s).
Qed.

Ltac split_at_failure l acc :=
  lazymatch l with
  | (?st, Some ?e) :: ?rest => exists acc, st, e, rest
  | ?x :: ?rest => split_at_failure rest (acc ++ [x])
  end.

(** X5.  When [sendEmail] returns an error, exactly one step of its body
    has failed: every step before it succeeded, after it only deferred
    steps were made, and the error returned is the error of that step
    behind the text the function puts before it. *)
Theorem sendEmail_stops_at_first_failure
    (srv : Smtp.Server) (toEmail subject body server : string) (port : Z)
    (user password : string) (s : Smtp.Session) (err : error) :
  let r := Smtp.sendEmail srv toEmail subject body server port user password s in
  fst r = Some err ->
  exists before st e after,
    Smtp.log (snd r) = Smtp.log s ++ before ++ (st, Some e) :: after
    /\ (forall ev, In ev before -> snd ev = None)
    /\ Smtp.isDeferred st = false
    /\ (forall ev, In ev after -> Smtp.isDeferred (fst ev) = true)
    /\ err = Sprintf [Smtp.wrapOf st; e].
Proof.
  cbv zeta. smtp_cases.
  all: intros Hr; try discriminate Hr; injection Hr as <-.
  all: match goal with
       | |- exists _ _ _ _, Smtp.log _ ++ ?l = _ /\ _ =>
           split_at_failure l (@nil Smtp.Event)
       end.
  all: cbn [app].
  all: split; [reflexivity | ].
  all: split;
    [ intros ev Hin; cbn [In] in Hin;
      repeat match goal with
             | H : _ \/ _ |- _ => destruct H
             | H : False |- _ => destruct H
             end; subst; reflexivity | ].
  all: split; [reflexivity | ].
  all: split; [ | reflexivity].
  all: intros ev Hin; cbn [In] in Hin;
    repeat match goal with
           | H : _ \/ _ |- _ => destruct H
           | H : False |- _ => destruct H
           end; subst; reflexivity.
Qed.

(** A server that refuses the recipient: the sender was accepted, no data
    was sent, the session was quit and the connection closed. *)
Lemma sendEmail_stops_at_first_failure_witness :
  exists before st e after,
    Smtp.log (snd (Smtp.sendEmail Smtp.pickyServer "bob@example.com" "Hi" "Text"
                     "smtp.example.com" 587 "bot@example.com" "secret"
                     Smtp.freshSession))
    = [] ++ before ++ (st, Some e) :: after
    /\ (forall ev, In ev before -> snd ev = None)
    /\ Smtp.isDeferred st = false
    /\ (forall ev, In ev after -> Smtp.isDeferred (fst ev) = true)
    /\ "failed to set recipient: 550 no such user" = Sprintf [Smtp.wrapOf st; e].
Proof.
  exact (sendEmail_stops_at_first_failure Smtp.pickyServer "bob@example.com" "Hi"
           "Text" "smtp.example.com" 587 "bot@example.com" "secret"
           Smtp.freshSession "failed to set recipient: 550 no such user" eq_refl).
Defined.

(** X6.  The connection is closed exactly when it was opened, and the
    session is quit exactly when the client was created: a failed dial to
    [server:port] is the only step; after a failed [NewClient] the
    connection is closed; in every other case [Quit] and then the closing
    of the connection are the last two steps, and the only deferred ones. *)
Theorem sendEmail_releases_what_it_acquired
    (srv : Smtp.Server) (toEmail subject body server : string) (port : Z)
    (user password : string) (s : Smtp.Session) :
  let r := Smtp.sendEmail srv toEmail subject body server port user password s in
  let dial := Smtp.Dial "tcp" (Sprintf [server; ":"; fmtd port]) in
  let h1 := Smtp.log s ++ [(dial, None)] in
  match Smtp.fails srv (Smtp.log s) dial with
  | Some e => Smtp.log (snd r) = Smtp.log s ++ [(dial, Some e)]
  | None =>
      match Smtp.fails srv h1 (Smtp.NewClient server) with
      | Some e =>
          exists c,
            Smtp.log (snd r) =
            h1 ++ [(Smtp.NewClient server, Some e); (Smtp.CloseConn, c)]
      | None =>
          exists steps q c,
            Smtp.log (snd r) =
            h1 ++ (Smtp.NewClient server, None) :: steps
               ++ [(Smtp.Quit, q); (Smtp.CloseConn, c)]
            /\ forall ev, In ev steps -> Smtp.isDeferred (fst ev) = false
      end
  end.
Proof.
  cbv zeta. smtp_cases.
  all: repeat match goal with
              | H : Smtp.fails _ _ (Smtp.Dial _ _) = _ |- _ => rewrite H; clear H
              | H : Smtp.fails _ _ (Smtp.NewClient _) = _ |- _ =>
                  rewrite <- app_assoc in H; cbn [app] in H
              end.
  all: try reflexivity.
  all: repeat match goal with
              | H : Smtp.fails _ _ (Smtp.NewClient _) = _ |- _ => rewrite H; clear H
              end.
  all: try (eexists; rewrite <- app_assoc; reflexivity).
  all: match goal with
       | |- exists _ _ _, Smtp.log _ ++ _ :: _ :: ?l = _ /\ _ =>
           let n := eval cbv in (List.length l - 2)%nat in
           exists (firstn n l); do 2 eexists
       end.
  all: rewrite <- app_assoc; cbn [firstn app]; split; [reflexivity | ].
  all: intros ev Hin; cbn [In] in Hin;
    repeat match goal with
           | H : _ \/ _ |- _ => destruct H
           | H : False |- _ => destruct H
           end; subst; reflexivity.
Qed.

Ltac contradict_announce :=
  match goal with
  | H1 : Smtp.announces _ _ _ = true, H2 : Smtp.announces _ _ _ = false |- _ =>
      discriminate (eq_trans (eq_sym H1) H2)
  end.

(** X7.  Transport security is opportunistic.  When the server announces
    STARTTLS, no [Auth] step is made before a [StartTLS] step has
    succeeded.  When it does not, no [StartTLS] step is made at all, the
    note is printed, and the credentials are offered all the same.  Every
    [StartTLS] step names the server and skips the verification of its
    certificate; every [Auth] step carries the SMTP user and password with
    an empty identity. *)
Theorem sendEmail_starttls_is_opportunistic
    (srv : Smtp.Server) (toEmail subject body server : string) (port : Z)
    (user password : string) (s : Smtp.Session) :
  let r := Smtp.sendEmail srv toEmail subject body server port user password s in
  let dial := Smtp.Dial "tcp" (Sprintf [server; ":"; fmtd port]) in
  let h2 := Smtp.log s ++ [(dial, None); (Smtp.NewClient server, None)] in
  exists new,
    Smtp.log (snd r) = Smtp.log s ++ new
    /\ (forall ev, In ev new -> Smtp.isStartTLS (fst ev) = true ->
                   fst ev = Smtp.StartTLS true server)
    /\ (forall ev, In ev new -> Smtp.isAuth (fst ev) = true ->
                   fst ev = Smtp.Auth "" user password server)
    /\ (Smtp.announces srv h2 "STARTTLS" = true ->
        Smtp.authOnlyAfterTLS false new = true)
    /\ (Smtp.announces srv h2 "STARTTLS" = false ->
        forallb (fun ev => negb (Smtp.isStartTLS (fst ev))) new = true
        /\ (In (Smtp.NewClient server, None) new ->
            existsb (fun ev => Smtp.isAuth (fst ev)) new = true
            /\ In (Sprintf ["SMTP server does not support STARTTLS"; newline])
                  (Smtp.printed (snd r)))).
Proof.
  cbv zeta. smtp_cases.
  all: eexists; split; [reflexivity | ].
  all: split;
    [ intros ev Hin Hk; cbn [In] in Hin;
      repeat match goal with
             | H : _ \/ _ |- _ => destruct H
             | H : False |- _ => destruct H
             end; subst; cbn [fst Smtp.isStartTLS] in *;
      solve [reflexivity | discriminate] | ].
  all: split;
    [ intros ev Hin Hk; cbn [In] in Hin;
      repeat match goal with
             | H : _ \/ _ |- _ => destruct H
             | H : False |- _ => destruct H
             end; subst; cbn [fst Smtp.isAuth] in *;
      solve [reflexivity | discriminate] | ].
  all: repeat match goal with
              | H : Smtp.announces _ _ _ = _ |- _ =>
                  rewrite <- app_assoc in H; cbn [app] in H
              end.
  all: split; [ intros Ha; first [contradict_announce | reflexivity] | ].
  all: intros Ha; try contradict_announce.
  all: split; [reflexivity | ].
  all: intros Hin; cbn [In] in Hin.
  all: try (exfalso;
            repeat match goal with
                   | H : _ \/ _ |- _ => destruct H
                   | H : False |- _ => destruct H
                   end; discriminate).
  all: split; [reflexivity | apply in_or_app; right; left; reflexivity].
Qed.

(** What the dialogue looks like with a server that announces STARTTLS and
    with one that does not. *)
Example sendEmail_dialogues :
  map fst (Smtp.log (snd (Smtp.sendEmail Smtp.tlsServer "bob@example.com" "Hi"
                            "Text" "smtp.example.com" 587 "bot@example.com"
                            "secret" Smtp.freshSession)))
  = [Smtp.Dial "tcp" "smtp.example.com:587"; Smtp.NewClient "smtp.example.com";
     Smtp.Extension "STARTTLS"; Smtp.StartTLS true "smtp.example.com";
     Smtp.Auth "" "bot@example.com" "secret" "smtp.example.com";
     Smtp.Mail "bot@example.com"; Smtp.Rcpt "bob@example.com"; Smtp.Data;
     Smtp.Bytes (Smtp.mkEmail "bot@example.com" ["bob@example.com"] "Hi" "Text");
     Smtp.Write "Text"; Smtp.CloseWriter; Smtp.Quit; Smtp.CloseConn]
  /\ map fst (Smtp.log (snd (Smtp.sendEmail Smtp.plainServer "bob@example.com"
                               "Hi" "Text" "smtp.example.com" 587
                               "bot@example.com" "secret" Smtp.freshSession)))
     = [Smtp.Dial "tcp" "smtp.example.com:587"; Smtp.NewClient "smtp.example.com";
        Smtp.Extension "STARTTLS";
        Smtp.Auth "" "bot@example.com" "secret" "smtp.example.com";
        Smtp.Mail "bot@example.com"; Smtp.Rcpt "bob@example.com"; Smtp.Data;
        Smtp.Bytes (Smtp.mkEmail "bot@example.com" ["bob@example.com"] "Hi" "Text");
        Smtp.Write "Text"; Smtp.CloseWriter; Smtp.Quit; Smtp.CloseConn]
  /\ Smtp.log (snd (Smtp.sendEmail Smtp.downServer "bob@example.com" "Hi" "Text"
                      "smtp.example.com" 587 "bot@example.com" "secret"
                      Smtp.freshSession))
     = [(Smtp.Dial "tcp" "smtp.example.com:587", Some "connection refused")].
Proof. repeat split; reflexivity. Qed.

(** *** Pagination *)

Lemma getOpenPRsFrom_step (W : World) (fuel : nat) (ow rp : string) (page : Z)
      (allPRs : list PullRequest) (s : State) :
  answer W (calls s) (PullRequestsList ow rp page 100) = None ->
  let s1 := mkState (fallbackEmailDomain s)
                    (stdout s ++ [Sprintf ["Fetching pull requests..."; newline]])
                    (calls s ++ [mkCall (PullRequestsList ow rp page 100) None])
                    (clockReads s) in
  getOpenPRsFrom W (S fuel) ow rp page allPRs s =
  (if snd (listedPage W (calls s) page) =? 0
   then (fun s' => (Some (inr (allPRs ++ fst (listedPage W (calls s) page))),
                    mkState (fallbackEmailDomain s')
                      (stdout s' ++
                       [Sprintf ["Total open PRs fetched: ";
                                 fmtd (Z.of_nat (List.length
                                    (allPRs ++ fst (listedPage W (calls s) page))));
                                 newline]])
                      (calls s') (clockReads s')))
   else getOpenPRsFrom W fuel ow rp (snd (listedPage W (calls s) page))
                       (allPRs ++ fst (listedPage W (calls s) page))) s1.
Proof.
  intros Hok. cbv zeta. cbn [getOpenPRsFrom].
  unfold bind, Printf, pullRequestsList, remote, ret. crunch. rewrite Hok.
  destruct (listedPage W (calls s) page) as [prs nextPage]. cbn [fst snd].
  destruct (nextPage =? 0); reflexivity.
Qed.

Lemma getOpenPRsFrom_chain (W : World) (ow rp : string)
      (pages : Z -> list PullRequest * Z) :
  (forall h p, listedPage W h p = pages p) ->
  (forall h p, answer W h (PullRequestsList ow rp p 100) = None) ->
  forall (chain : list (Z * list PullRequest)) (fuel : nat)
         (allPRs : list PullRequest) (s : State) (p : Z) (prs : list PullRequest),
    linked pages ((p, prs) :: chain) ->
    (List.length chain < fuel)%nat ->
    let r := getOpenPRsFrom W fuel ow rp p allPRs s in
    fst r = Some (inr (allPRs ++ List.concat (map snd ((p, prs) :: chain))))
    /\ calls (snd r) = calls s ++ listingCalls ow rp ((p, prs) :: chain)
    /\ clockReads (snd r) = clockReads s.
Proof.
  intros Hpages Hok chain.
  induction chain as [ | [q prs'] chain IH]; intros fuel allPRs s p prs Hl Hfuel;
    (destruct fuel as [ | fuel]; [cbn in Hfuel; lia | ]); cbv zeta;
    rewrite getOpenPRsFrom_step by apply Hok; rewrite Hpages.
  - cbn in Hl. rewrite Hl. cbn. rewrite app_nil_r. auto.
  - destruct Hl as (Hp & Hq & Hl). rewrite Hp. cbn [fst snd].
    apply Z.eqb_neq in Hq. rewrite Hq.
    match goal with
    | |- context [getOpenPRsFrom W fuel ow rp q ?a ?s1] =>
        destruct (IH fuel a s1 q prs' Hl) as (Hr & Hc & Hk);
        [cbn in Hfuel; lia | ]
    end.
    cbv zeta in *. rewrite Hr, Hc, Hk. crunch.
    rewrite <- !app_assoc. auto.
Qed.

(** X8.  When the host serves a chain of pages, each naming the next and
    the last naming none, and no listing fails, [getOpenPRs], given fuel for
    that many pages, returns the pull requests of all pages in the order of
    the pages.  It asks for page 0 first, then for each page the host
    named, once and 100 pull requests a page; it does not read the
    clock. *)
Theorem getOpenPRs_collects_every_page
    (W : World) (ow rp : string) (pages : Z -> list PullRequest * Z)
    (first : list PullRequest) (chain : list (Z * list PullRequest))
    (fuel : nat) (s : State) :
  (forall h p, listedPage W h p = pages p) ->
  (forall h p, answer W h (PullRequestsList ow rp p 100) = None) ->
  linked pages ((0, first) :: chain) ->
  (List.length chain < fuel)%nat ->
  let r := getOpenPRs W fuel ow rp s in
  fst r = Some (inr (List.concat (map snd ((0, first) :: chain))))
  /\ callsSince s (snd r) = listingCalls ow rp ((0, first) :: chain)
  /\ clockReads (snd r) = clockReads s.
Proof.
  intros Hpages Hok Hl Hfuel. cbv zeta. unfold getOpenPRs.
  destruct (getOpenPRsFrom_chain W ow rp pages Hpages Hok chain fuel [] s 0 first
              Hl Hfuel) as (Hr & Hc & Hk).
  cbv zeta in *. rewrite Hr. split; [reflexivity | ].
  split; [apply callsSince_app; exact Hc | exact Hk].
Qed.

(** Three pages, numbered 0, 2 and 3, with one, two and no pull request. *)
Lemma getOpenPRs_collects_every_page_witness :
  let a := [samplePR 1 april1 []] in
  let b := [samplePR 2 april1 []; samplePR 3 may30 []] in
  let r := getOpenPRs (pagedWorld june1 (threePages a b [])) 3 "octo" "hello"
                      readyState in
  fst r = Some (inr (a ++ b ++ []))
  /\ callsSince readyState (snd r)
     = [mkCall (PullRequestsList "octo" "hello" 0 100) None;
        mkCall (PullRequestsList "octo" "hello" 2 100) None;
        mkCall (PullRequestsList "octo" "hello" 3 100) None]
  /\ clockReads (snd r) = 0%nat.
Proof.
  cbv zeta.
  apply (getOpenPRs_collects_every_page
           (pagedWorld june1
              (threePages [samplePR 1 april1 []]
                 [samplePR 2 april1 []; samplePR 3 may30 []] []))
           "octo" "hello"
           (threePages [samplePR 1 april1 []]
              [samplePR 2 april1 []; samplePR 3 may30 []] [])
           [samplePR 1 april1 []]
           [(2, [samplePR 2 april1 []; samplePR 3 may30 []]); (3, [])]
           3 readyState).
  - reflexivity.
  - reflexivity.
  - cbn. repeat split; discriminate.
  - cbn. lia.
Defined.

(** X9.  The loop of [getOpenPRs] has no bound of its own: when every page
    the host serves names a next page and no listing fails, it has not
    returned after any number of pages, and has made one listing call for
    each. *)
Theorem getOpenPRs_needs_a_last_page
    (W : World) (ow rp : string) (fuel : nat) (s : State) :
  (forall h p, snd (listedPage W h p) <> 0) ->
  (forall h p, answer W h (PullRequestsList ow rp p 100) = None) ->
  let r := getOpenPRs W fuel ow rp s in
  fst r = None /\ List.length (callsSince s (snd r)) = fuel.
Proof.
  intros Hnext Hok. cbv zeta. unfold getOpenPRs.
  assert (H : forall fuel page allPRs s,
             let r := getOpenPRsFrom W fuel ow rp page allPRs s in
             fst r = None
             /\ exists new, calls (snd r) = calls s ++ new
                            /\ List.length new = fuel).
  { clear fuel s. induction fuel as [ | fuel IH]; intros page allPRs s; cbv zeta.
    - split; [reflexivity | ]. exists []. cbn. now rewrite app_nil_r.
    - rewrite getOpenPRsFrom_step by apply Hok.
      specialize (Hnext (calls s) page). apply Z.eqb_neq in Hnext.
      rewrite Hnext.
      match goal with
      | |- context [getOpenPRsFrom W fuel ow rp ?q ?a ?s1] =>
          destruct (IH q a s1) as (Hr & new & Hc & Hn)
      end.
      split; [exact Hr | ].
      exists (mkCall (PullRequestsList ow rp page 100) None :: new).
      rewrite Hc. crunch. rewrite <- app_assoc. cbn. now rewrite Hn. }
  destruct (H fuel 0 [] s) as (Hr & new & Hc & Hn). cbv zeta in *.
  split; [exact Hr | ]. now rewrite (callsSince_app _ _ _ Hc).
Qed.

Lemma getOpenPRs_needs_a_last_page_witness :
  let r := getOpenPRs (pagedWorld june1 endlessPages) 7 "octo" "hello"
                      readyState in
  fst r = None /\ List.length (callsSince readyState (snd r)) = 7%nat.
Proof.
  cbv zeta.
  apply (getOpenPRs_needs_a_last_page (pagedWorld june1 endlessPages)
           "octo" "hello" 7 readyState).
  - intros h p. cbn. discriminate.
  - reflexivity.
Defined.

(** *** The calls of a run *)

Lemma recipient_by_domain (uTL : string -> string) (pr : PullRequest)
      (s s0 : State) :
  fallbackEmailDomain s = fallbackEmailDomain s0 ->
  recipient uTL pr s = recipient uTL pr s0.
Proof.
  intros H. unfold recipient.
  destruct (getEmailFromGitHubUser_spec uTL (GetUser pr) s) as [-> _].
  destruct (getEmailFromGitHubUser_spec uTL (GetUser pr) s0) as [-> _].
  now rewrite H.
Qed.

Lemma processPR_chunk
    (uTL : string -> string) (uEF : string -> string -> bool) (W : World)
    (c : Config) (staleCutoff : GoTime.Time) (s0 : State) (pr : PullRequest)
    (s : State) :
  fallbackEmailDomain s = fallbackEmailDomain s0 ->
  let s' := snd (processPR uTL uEF W c staleCutoff pr s) in
  exists chunk,
    calls s' = calls s ++ chunk
    /\ chunkShape uTL uEF c staleCutoff s0 pr chunk
    /\ fallbackEmailDomain s' = fallbackEmailDomain s
    /\ (clockReads s <= clockReads s' <= S (clockReads s))%nat.
Proof.
  intros Hdom. cbv zeta.
  pose proof (recipient_by_domain uTL pr s s0 Hdom) as Hto.
  unfold chunkShape. rewrite <- Hto. clear Hto Hdom s0.
  unfold recipient. run_body.
  destruct (String.eqb (GetEmail (GetUser pr)) "") eqn:E;
    cbn [negb fst snd]; crunch;
    rewrite ?E, ?synthesized_address_not_empty.
  all: destruct (hasLabel uEF pr "do not stale");
    destruct (hasLabel uEF pr "stale-warning");
    destruct (GoTime.Before (GetUpdatedAt pr) staleCutoff);
    cbn [orb negb]; crunch.
  all: repeat match goal with
              | |- context [if ?a <? ?b then _ else _] =>
                  destruct (a <? b); crunch
              end.
  all: rewrite ?E, ?synthesized_address_not_empty; crunch.
  all: repeat match goal with
              | |- context [match answer ?w ?h ?o with _ => _ end] =>
                  destruct (answer w h o) eqn:?; crunch;
                  rewrite ?E, ?synthesized_address_not_empty; crunch
              end.
  all: repeat rewrite <- app_assoc; cbn [app].
  all: eexists; split; [first [reflexivity | symmetry; apply app_nil_r] | ].
  all: split; [ | split; [reflexivity | lia]].
  all: eauto 6.
Qed.

Lemma forEach_processPR_chunks
    (uTL : string -> string) (uEF : string -> string -> bool) (W : World)
    (c : Config) (staleCutoff : GoTime.Time) (s0 : State)
    (prs : list PullRequest) :
  forall s : State,
    fallbackEmailDomain s = fallbackEmailDomain s0 ->
    let s' := snd (forEach prs (processPR uTL uEF W c staleCutoff) s) in
    exists chunks,
      calls s' = calls s ++ List.concat chunks
      /\ Forall2 (chunkShape uTL uEF c staleCutoff s0) prs chunks
      /\ (clockReads s <= clockReads s' <= clockReads s + List.length prs)%nat.
Proof.
  induction prs as [ | pr prs IH]; intros s Hdom; cbv zeta.
  - exists []. cbn. rewrite app_nil_r. repeat split; auto; lia.
  - rewrite forEach_cons.
    destruct (processPR_chunk uTL uEF W c staleCutoff s0 pr s Hdom)
      as (chunk & Hc & Hshape & Hd & Hk).
    set (s1 := snd (processPR uTL uEF W c staleCutoff pr s)) in *.
    destruct (IH s1) as (chunks & Hcs & Hshapes & Hks);
      [now rewrite Hd | ].
    exists (chunk :: chunks). cbn [List.concat List.length].
    rewrite Hcs, Hc, <- app_assoc.
    repeat split; auto; lia.
Qed.

Lemma processOpenPRs_chunks
    (uTL : string -> string) (uEF : string -> string -> bool) (W : World)
    (c : Config) (prs : list PullRequest) (s : State) :
  let s' := snd (processOpenPRs uTL uEF W c prs s) in
  let staleCutoff :=
    staleCutoffAt (wallClock W (clockReads s)) (daysInactive c) in
  exists chunks,
    calls s' = calls s ++ List.concat chunks
    /\ Forall2 (chunkShape uTL uEF c staleCutoff s) prs chunks
    /\ (clockReads s' <= clockReads s + 1 + List.length prs)%nat.
Proof.
  cbv zeta. destruct prs as [ | pr prs].
  - exists []. unfold processOpenPRs, bind, Printf, ret. crunch. cbn.
    rewrite app_nil_r. repeat split; auto. lia.
  - rewrite processOpenPRs_cons. cbn [snd].
    match goal with
    | |- context [forEach ?l ?body ?s1] =>
        destruct (forEach_processPR_chunks uTL uEF W c
                    (staleCutoffAt (wallClock W (clockReads s)) (daysInactive c))
                    s l s1 eq_refl) as (chunks & Hc & Hshapes & Hk)
    end.
    cbv zeta in *. cbn [calls clockReads] in *.
    exists chunks. repeat split; auto. lia.
Qed.

(** X10.  The calls of the loop are made pull request by pull request, in
    the order of the list, and each pull request causes one of these: no
    call or one removal of [stale-warning] (opted out, or active); no
    call, a failed close, or a successful close followed by the closure
    notice (stale and warned); a failed warning, or a successful warning
    followed by the addition of [stale-warning] (stale, not warned).  The
    cutoff is the one computed from the single clock reading at the start
    of the loop. *)
Theorem run_calls_go_pull_request_by_pull_request
    (uTL : string -> string) (uEF : string -> string -> bool) (W : World)
    (c : Config) (openPRs : list PullRequest) (s : State) :
  let s' := snd (processOpenPRs uTL uEF W c openPRs s) in
  let staleCutoff :=
    staleCutoffAt (wallClock W (clockReads s)) (daysInactive c) in
  exists chunks,
    callsSince s s' = List.concat chunks
    /\ Forall2 (chunkShape uTL uEF c staleCutoff s) openPRs chunks.
Proof.
  cbv zeta.
  destruct (processOpenPRs_chunks uTL uEF W c openPRs s)
    as (chunks & Hc & Hshapes & _).
  exists chunks. split; [apply callsSince_app; exact Hc | exact Hshapes].
Qed.

Lemma chunkShape_entitled
    (uTL : string -> string) (uEF : string -> string -> bool) (c : Config)
    (staleCutoff : GoTime.Time) (s0 : State) (pr : PullRequest)
    (chunk : list Call) :
  chunkShape uTL uEF c staleCutoff s0 pr chunk ->
  forall k, In k chunk -> entitled uEF c staleCutoff pr (callOp k).
Proof.
  unfold chunkShape, entitled.
  destruct (hasLabel uEF pr "do not stale");
    destruct (hasLabel uEF pr "stale-warning");
    destruct (GoTime.Before (GetUpdatedAt pr) staleCutoff);
    cbn [orb negb]; intros H k Hin.
  all: repeat match goal with
              | H : _ \/ _ |- _ => destruct H
              | H : exists _, _ |- _ => destruct H
              end; subst; cbn [In] in Hin;
       repeat match goal with
              | H : _ \/ _ |- _ => destruct H
              | H : False |- _ => destruct H
              end; subst; cbn [callOp]; auto 20.
Qed.

Lemma chunkShape_bounds
    (uTL : string -> string) (uEF : string -> string -> bool) (c : Config)
    (staleCutoff : GoTime.Time) (s0 : State) (pr : PullRequest)
    (chunk : list Call) :
  chunkShape uTL uEF c staleCutoff s0 pr chunk ->
  (List.length chunk <= 2)%nat
  /\ (List.length (filter (fun k => isEmail (callOp k)) chunk) <= 1)%nat
  /\ (List.length (filter (fun k => match callErr k with
                                    | Some _ => true
                                    | None => false
                                    end) chunk) <= 1)%nat.
Proof.
  unfold chunkShape.
  destruct (hasLabel uEF pr "do not stale");
    destruct (hasLabel uEF pr "stale-warning");
    destruct (GoTime.Before (GetUpdatedAt pr) staleCutoff);
    cbn [orb negb]; intros H.
  all: repeat match goal with
              | H : _ \/ _ |- _ => destruct H
              | H : exists _, _ |- _ => destruct H
              end; subst; cbn;
       repeat match goal with
              | |- context [match ?r with Some _ => _ | None => _ end] =>
                  destruct r; cbn
              end; repeat split; lia.
Qed.

(** X11.  Every call of the loop is made for a pull request of the fetched
    list that entitles the program to it.  So the run never closes a pull
    request that is opted out, active or not yet warned; never mails the
    author of an opted-out or active pull request; never adds or removes a
    label other than [stale-warning]; never sets a state other than
    [closed]; and never addresses a repository other than the configured
    one. *)
Theorem run_calls_are_entitled
    (uTL : string -> string) (uEF : string -> string -> bool) (W : World)
    (c : Config) (openPRs : list PullRequest) (s : State) (k : Call) :
  let s' := snd (processOpenPRs uTL uEF W c openPRs s) in
  let staleCutoff :=
    staleCutoffAt (wallClock W (clockReads s)) (daysInactive c) in
  In k (callsSince s s') ->
  exists pr, In pr openPRs /\ entitled uEF c staleCutoff pr (callOp k).
Proof.
  cbv zeta. intros Hin.
  destruct (processOpenPRs_chunks uTL uEF W c openPRs s)
    as (chunks & Hc & Hshapes & _).
  rewrite (callsSince_app _ _ _ Hc) in Hin. clear Hc.
  induction Hshapes as [ | pr chunk prs chunks Hshape Hshapes IH].
  - contradiction.
  - cbn [List.concat] in Hin. apply in_app_or in Hin as [Hin | Hin].
    + exists pr. split; [left; reflexivity | ].
      exact (chunkShape_entitled _ _ _ _ _ _ _ Hshape k Hin).
    + destruct (IH Hin) as (pr' & Hpr' & He). exists pr'. split; [right | ]; auto.
Qed.

(** The run over #12 (stale), #19 (stale and warned) and #13 (active and
    warned) closes #19: it is in the list, stale, warned and not opted
    out. *)
Lemma run_calls_are_entitled_witness :
  exists pr,
    In pr [samplePR 12 april1 []; samplePR 19 april1 ["stale-warning"];
           samplePR 13 may30 ["stale-warning"]]
    /\ entitled neverFold (sampleConfig 30 7) (staleCutoffAt june1 30) pr
                (PullRequestsEdit "octo" "hello" 19 "closed").
Proof.
  apply (run_calls_are_entitled identityLower neverFold (calmWorld june1)
           (sampleConfig 30 7)
           [samplePR 12 april1 []; samplePR 19 april1 ["stale-warning"];
            samplePR 13 may30 ["stale-warning"]]
           readyState
           (mkCall (PullRequestsEdit "octo" "hello" 19 "closed") None)).
  vm_compute. auto 10.
Defined.

(** X12.  A run makes at most two calls for each pull request of the list,
    sends at most one email for each, leaves at most one failed call for
    each, and reads the clock at most once for each after the reading for
    the cutoff. *)
Theorem run_effort_is_bounded
    (uTL : string -> string) (uEF : string -> string -> bool) (W : World)
    (c : Config) (openPRs : list PullRequest) (s : State) :
  let s' := snd (processOpenPRs uTL uEF W c openPRs s) in
  let n := List.length openPRs in
  (List.length (callsSince s s') <= 2 * n)%nat
  /\ (List.length (filter (fun k => isEmail (callOp k)) (callsSince s s')) <= n)%nat
  /\ (List.length (filter (fun k => match callErr k with
                                    | Some _ => true
                                    | None => false
                                    end) (callsSince s s')) <= n)%nat
  /\ (clockReads s' <= clockReads s + 1 + n)%nat.
Proof.
  cbv zeta.
  destruct (processOpenPRs_chunks uTL uEF W c openPRs s)
    as (chunks & Hc & Hshapes & Hk).
  rewrite (callsSince_app _ _ _ Hc). clear Hc.
  split; [ | split; [ | split; [ | exact Hk]]].
  all: clear Hk; induction Hshapes as [ | pr chunk prs chunks Hshape Hshapes IH];
    [cbn; lia | ].
  all: destruct (chunkShape_bounds _ _ _ _ _ _ _ Hshape) as (H1 & H2 & H3).
  all: cbn [List.concat List.length];
    rewrite ?filter_app, ?length_app; lia.
Qed.

Lemma getOpenPRsFrom_ops (W : World) (ow rp : string) (fuel : nat) :
  forall (page : Z) (allPRs : list PullRequest) (s : State),
    let r := getOpenPRsFrom W fuel ow rp page allPRs s in
    exists new,
      calls (snd r) = calls s ++ new
      /\ (forall k, In k new ->
                    exists p, callOp k = PullRequestsList ow rp p 100)
      /\ fallbackEmailDomain (snd r) = fallbackEmailDomain s.
Proof.
  induction fuel as [ | fuel IH]; intros page allPRs s; cbv zeta.
  - exists []. cbn. rewrite app_nil_r. repeat split; intros; contradiction.
  - cbn [getOpenPRsFrom].
    unfold bind, Printf, pullRequestsList, remote, ret. crunch.
    destruct (answer W (calls s) (PullRequestsList ow rp page 100)) as [e | ].
    + crunch. eexists. split; [reflexivity | ]. split; [ | reflexivity].
      intros k [<- | []]. exists page. reflexivity.
    + destruct (listedPage W (calls s) page) as [prs nextPage].
      destruct (nextPage =? 0).
      * crunch. eexists. split; [reflexivity | ]. split; [ | reflexivity].
        intros k [<- | []]. exists page. reflexivity.
      * match goal with
        | |- context [getOpenPRsFrom W fuel ow rp ?p ?a ?s0] =>
            destruct (IH p a s0) as (new & Hnew & Hops & Hd)
        end.
        cbv zeta in *. crunch. cbn [fallbackEmailDomain calls] in *.
        exists (mkCall (PullRequestsList ow rp page 100) None :: new).
        rewrite Hnew, <- app_assoc. split; [reflexivity | ].
        split; [ | exact Hd].
        intros k [<- | Hin]; [exists page; reflexivity | auto].
Qed.

(** A fetch that has fuel starts with the listing of the page it is asked
    for. *)
Lemma getOpenPRsFrom_first (W : World) (ow rp : string) (fuel : nat)
      (page : Z) (allPRs : list PullRequest) (s : State) :
  let r := getOpenPRsFrom W fuel ow rp page allPRs s in
  fst r <> None ->
  exists t rest,
    calls (snd r) = calls s ++ mkCall (PullRequestsList ow rp page 100) t :: rest.
Proof.
  cbv zeta. destruct fuel as [ | fuel].
  - cbn. intros H. now contradiction H.
  - intros _. cbn [getOpenPRsFrom].
    unfold bind, Printf, pullRequestsList, remote, ret. crunch.
    destruct (answer W (calls s) (PullRequestsList ow rp page 100)) as [e | ].
    + crunch. eexists _, []. reflexivity.
    + destruct (listedPage W (calls s) page) as [prs nextPage].
      destruct (nextPage =? 0).
      * crunch. eexists _, []. reflexivity.
      * match goal with
        | |- context [getOpenPRsFrom W fuel ow rp ?p ?a ?s0] =>
            destruct (getOpenPRsFrom_ops W ow rp fuel p a s0)
              as (new & Hnew & _)
        end.
        cbv zeta in Hnew. cbn [calls] in Hnew.
        rewrite Hnew, <- app_assoc. eexists _, new. reflexivity.
Qed.

(** The calls of a run: none at all, or the connection test, the listings,
    and then, only if none of those failed and the first page was listed,
    the calls for the pull requests. *)
Lemma run_calls_order
    (uTL : string -> string) (uEF : string -> string -> bool) (W : World)
    (fuel : nat) (c : Config) (s : State) :
  let r := run uTL uEF W fuel c s in
  exists reads writes,
    calls (snd r) = calls s ++ reads ++ writes
    /\ (forall k, In k writes -> isReadOnly (callOp k) = false)
    /\ (writes <> [] -> forall k, In k reads -> callErr k = None)
    /\ ((reads = [] /\ writes = [])
        \/ exists t listings,
             reads = mkCall UsersGet t :: listings
             /\ (forall k, In k listings ->
                           exists p, callOp k
                                     = PullRequestsList (owner c) (repo c) p 100)
             /\ (writes <> [] ->
                 t = None
                 /\ exists rest,
                      listings
                      = mkCall (PullRequestsList (owner c) (repo c) 0 100) None
                        :: rest)).
Proof.
  cbv zeta.
  unfold run, setFallbackEmailDomain, testGitHubConnection, usersGet, remote,
    getOpenPRs, bind, Printf, ret.
  crunch.
  destruct (missingParameter c); crunch.
  { exists [], []. rewrite app_nil_r.
    repeat split; auto; intros; contradiction. }
  destruct (getGithubClient W (githubToken c) (githubBaseURL c)); crunch.
  { exists [], []. rewrite app_nil_r.
    repeat split; auto; intros; contradiction. }
  destruct (answer W (calls s) UsersGet) as [e0 | ]; crunch.
  { exists [mkCall UsersGet (Some e0)], []. rewrite app_nil_r.
    split; [reflexivity | ]. split; [intros; contradiction | ].
    split; [intros H; now contradiction H | ].
    right. exists (Some e0), []. split; [reflexivity | ].
    split; [intros; contradiction | intros H; now contradiction H]. }
  match goal with
  | |- context [getOpenPRsFrom W fuel ?ow ?rp ?p ?a ?s0] =>
      destruct (getOpenPRsFrom_calls W ow rp fuel p a s0)
        as (new & Hnew & Hro & Hres);
      destruct (getOpenPRsFrom_ops W ow rp fuel p a s0)
        as (new' & Hnew' & Hops & _);
      pose proof (getOpenPRsFrom_first W ow rp fuel p a s0) as Hfirst;
      destruct (getOpenPRsFrom W fuel ow rp p a s0) as [fetched s1]
  end.
  cbv zeta in Hfirst. cbn [fst snd calls] in *.
  assert (new' = new) as -> by
      (rewrite Hnew in Hnew'; now apply app_inv_head in Hnew').
  clear Hnew'.
  destruct fetched as [[msg | openPRs] | ]; crunch.
  - exists (mkCall UsersGet None :: new), [].
    rewrite Hnew, <- app_assoc, app_nil_r. split; [reflexivity | ].
    split; [intros; contradiction | ].
    split; [intros H; now contradiction H | ].
    right. exists None, new. split; [reflexivity | ].
    split; [exact Hops | intros H; now contradiction H].
  - destruct (processOpenPRs_effects uTL uEF W c openPRs s1)
      as (_ & out & new2 & _ & Hnew2 & _ & Hmut & _).
    destruct Hfirst as (t & rest & Hf); [discriminate | ].
    rewrite Hnew in Hf. apply app_inv_head in Hf. subst new.
    assert (t = None) as -> by (apply (Hres _ (or_introl eq_refl))).
    exists (mkCall UsersGet None
              :: mkCall (PullRequestsList (owner c) (repo c) 0 100) None :: rest),
           new2.
    rewrite Hnew2, Hnew, <- !app_assoc. split; [reflexivity | ].
    split; [exact Hmut | ].
    split; [intros _ k [<- | Hin]; [reflexivity | auto] | ].
    right. exists None. eexists. split; [reflexivity | ].
    split; [exact Hops | ].
    intros _. split; [reflexivity | ]. exists rest. reflexivity.
  - exists (mkCall UsersGet None :: new), [].
    rewrite Hnew, <- app_assoc, app_nil_r. split; [reflexivity | ].
    split; [intros; contradiction | ].
    split; [intros H; now contradiction H | ].
    right. exists None, new. split; [reflexivity | ].
    split; [exact Hops | intros H; now contradiction H].
Qed.

(** X13.  [main] reads before it writes.  Either it makes no call at all,
    or its calls are the connection test, then listings of the configured
    repository, 100 pull requests a page, then the calls that change or
    send something.  The latter are only made when the connection test,
    the listing of the first page and every further listing have
    succeeded, and no listing is made after the first of them. *)
Theorem main_reads_before_it_writes
    (uTL : string -> string) (uEF : string -> string -> bool) (W : World)
    (fuel : nat) (Getenv : string -> string) (flags : Flags) (s : State) :
  let r := main uTL uEF W fuel Getenv flags s in
  let c := parseFlags Getenv flags in
  exists reads writes,
    callsSince s (snd r) = reads ++ writes
    /\ (forall k, In k writes -> isReadOnly (callOp k) = false)
    /\ (writes <> [] -> forall k, In k reads -> callErr k = None)
    /\ ((reads = [] /\ writes = [])
        \/ exists t listings,
             reads = mkCall UsersGet t :: listings
             /\ (forall k, In k listings ->
                           exists p, callOp k
                                     = PullRequestsList (owner c) (repo c) p 100)
             /\ (writes <> [] ->
                 t = None
                 /\ exists rest,
                      listings
                      = mkCall (PullRequestsList (owner c) (repo c) 0 100) None
                        :: rest)).
Proof.
  cbv zeta. rewrite main_after_banner.
  match goal with
  | |- context [run uTL uEF W fuel ?c ?s0] =>
      destruct (run_calls_order uTL uEF W fuel c s0)
        as (reads & writes & Hc & H);
      change (calls s0) with (calls s) in Hc
  end.
  exists reads, writes. split; [apply callsSince_app; exact Hc | exact H].
Qed.

(** X14.  After the sanity check, a base URL that [url.Parse] rejects, with
    or without [upload/] appended, ends [main] in [log.Fatal] before any
    remote call; a failed connection test ends it with that one call
    made, before any listing. *)
Theorem client_and_connection_errors_are_fatal
    (uTL : string -> string) (uEF : string -> string -> bool) (W : World)
    (fuel : nat) (c : Config) (s : State) :
  missingParameter c = false ->
  let r := run uTL uEF W fuel c s in
  let base := githubBaseURL c in
  (forall e, urlParse W base = Some e ->
             fst r = Fatal (Sprintf ["Error creating GitHub client: ";
                                     Sprintf ["invalid base URL: "; e]])
             /\ calls (snd r) = calls s)
  /\ (urlParse W base = None ->
      forall e, urlParse W (base ++ "upload/")%string = Some e ->
                fst r = Fatal (Sprintf ["Error creating GitHub client: ";
                                        Sprintf ["invalid upload URL: "; e]])
                /\ calls (snd r) = calls s)
  /\ (urlParse W base = None ->
      urlParse W (base ++ "upload/")%string = None ->
      forall e, answer W (calls s) UsersGet = Some e ->
                fst r = Fatal (Sprintf ["GitHub connection test failed: ";
                                        Sprintf ["failed to retrieve authenticated user: ";
                                                 e]])
                /\ calls (snd r) = calls s ++ [mkCall UsersGet (Some e)]).
Proof.
  intros Hok. cbv zeta.
  unfold run, setFallbackEmailDomain, testGitHubConnection, usersGet, remote,
    getGithubClient, getOpenPRs, bind, Printf, ret.
  crunch. rewrite Hok. crunch.
  split; [ | split].
  - intros e He. rewrite He. crunch. auto.
  - intros Hb e He. rewrite Hb, He. crunch. auto.
  - intros Hb Hu e He. rewrite Hb, Hu. crunch. rewrite He. crunch. auto.
Qed.

Lemma client_and_connection_errors_are_fatal_witness :
  let r := run identityLower neverFold (brokenWorld june1) 5 (sampleConfig 30 7)
               readyState in
  fst r = Fatal "GitHub connection test failed: failed to retrieve authenticated user: connection refused"
  /\ calls (snd r) = [mkCall UsersGet (Some "connection refused")].
Proof.
  exact (proj2 (proj2 (client_and_connection_errors_are_fatal
                         identityLower neverFold (brokenWorld june1) 5
                         (sampleConfig 30 7) readyState eq_refl))
               eq_refl eq_refl "connection refused" eq_refl).
Defined.

(** *** Names and handles in ASCII *)

Lemma all_pairs_checked (check : ascii -> ascii -> bool) :
  forallb (fun x => forallb (check x) allBytes) allBytes = true ->
  forall a b, check a b = true.
Proof.
  intros H a b. rewrite forallb_forall in H. specialize (H a (all_bytes a)).
  rewrite forallb_forall in H. exact (H b (all_bytes b)).
Qed.

Lemma foldStepExact_all (a b : ascii) : foldStepExact a b = true.
Proof. apply all_pairs_checked. vm_compute. reflexivity. Qed.

Lemma lowerAgrees_all (a b : ascii) : lowerAgrees a b = true.
Proof. apply all_pairs_checked. vm_compute. reflexivity. Qed.

Lemma EqualFold_cons (uEF : string -> string -> bool) (a b : ascii)
      (s t : string) :
  N.ltb (GoStrings.byte a) GoStrings.RuneSelf = true ->
  N.ltb (GoStrings.byte b) GoStrings.RuneSelf = true ->
  GoStrings.EqualFold uEF (String a s) (String b t)
  = sameLetter a b && GoStrings.EqualFold uEF s t.
Proof.
  intros Ha Hb. pose proof (foldStepExact_all a b) as H.
  unfold foldStepExact in H. rewrite Ha, Hb in H. cbn [andb implb] in H.
  apply Bool.eqb_prop in H. rewrite <- H. unfold foldStep. cbv zeta.
  cbn [GoStrings.EqualFold].
  destruct (N.leb GoStrings.RuneSelf
              (N.lor (GoStrings.byte a) (GoStrings.byte b))) eqn:E.
  - exfalso. unfold GoStrings.RuneSelf in *.
    apply N.ltb_lt in Ha, Hb. apply N.leb_le in E.
    assert (H7 : N.shiftr (N.lor (GoStrings.byte a) (GoStrings.byte b)) 7 = 0%N).
    { rewrite N.shiftr_lor.
      rewrite !N.shiftr_div_pow2, !N.div_small by assumption. reflexivity. }
    rewrite N.shiftr_div_pow2 in H7.
    apply N.div_small_iff in H7; [ | discriminate].
    change (2 ^ 7)%N with 128%N in H7. lia.
  - cbn [negb andb].
    destruct (N.eqb (GoStrings.byte b) (GoStrings.byte a)); cbn [orb];
      [reflexivity | ].
    destruct (_ && _); reflexivity.
Qed.

Lemma EqualFold_ascii (uEF : string -> string -> bool) :
  forall s t : string,
    GoStrings.isASCII s = true -> GoStrings.isASCII t = true ->
    GoStrings.EqualFold uEF s t = onlyCaseDiffers s t.
Proof.
  induction s as [ | a s IH]; intros [ | b t] Hs Ht; try reflexivity.
  cbn [GoStrings.isASCII] in Hs, Ht.
  apply andb_true_iff in Hs as [Ha Hs]. apply andb_true_iff in Ht as [Hb Ht].
  rewrite EqualFold_cons by assumption. cbn [onlyCaseDiffers].
  now rewrite IH.
Qed.

(** X15.  On ASCII names the label test is exact and does not depend on
    the Unicode tables: a pull request whose label names are all ASCII
    carries the label [name], itself ASCII, exactly when one of its labels
    has the same length as [name] and differs from it at most in letter
    case.  So no other spelling of a sentinel name opts a pull request
    out. *)
Theorem hasLabel_exact_on_ascii_names
    (uEF : string -> string -> bool) (pr : PullRequest) (name : string) :
  forallb (fun l => GoStrings.isASCII (GetName l)) (Labels pr) = true ->
  GoStrings.isASCII name = true ->
  hasLabel uEF pr name
  = existsb (fun l => onlyCaseDiffers (GetName l) name) (Labels pr).
Proof.
  intros Hls Hn. unfold hasLabel.
  induction (Labels pr) as [ | l ls IH]; [reflexivity | ].
  cbn [forallb existsb] in *. apply andb_true_iff in Hls as [Hl Hls].
  rewrite (EqualFold_ascii uEF _ _ Hl Hn), (IH Hls). reflexivity.
Qed.

(** [do-not-stale] and [donotstale] are not the opt-out label. *)
Lemma hasLabel_exact_on_ascii_names_witness :
  hasLabel neverFold (samplePR 20 april1 ["do-not-stale"; "donotstale"; "wip"])
           "do not stale"
  = false.
Proof.
  exact (hasLabel_exact_on_ascii_names neverFold
           (samplePR 20 april1 ["do-not-stale"; "donotstale"; "wip"])
           "do not stale" eq_refl eq_refl).
Defined.

Lemma mapBytes_lower_agrees :
  forall s t : string,
    onlyCaseDiffers s t = true ->
    GoStrings.mapBytes GoStrings.lowerByte s
    = GoStrings.mapBytes GoStrings.lowerByte t.
Proof.
  induction s as [ | a s IH]; intros [ | b t] H; try reflexivity;
    try discriminate H.
  cbn [onlyCaseDiffers] in H. apply andb_true_iff in H as [Hab H].
  pose proof (lowerAgrees_all a b) as Hl. unfold lowerAgrees in Hl.
  rewrite Hab in Hl. cbn [implb] in Hl. apply Ascii.eqb_eq in Hl.
  cbn [GoStrings.mapBytes]. now rewrite Hl, (IH t H).
Qed.

(** X16.  Without a public email the resolved address does not depend on
    the letter case of the handle: two authors whose ASCII handles differ
    only in case get the same address. *)
Theorem resolver_ignores_case_of_handle
    (uTL : string -> string) (u1 u2 : option User) (s : State) :
  GetEmail u1 = "" -> GetEmail u2 = "" ->
  GoStrings.isASCII (GetLogin u1) = true ->
  GoStrings.isASCII (GetLogin u2) = true ->
  onlyCaseDiffers (GetLogin u1) (GetLogin u2) = true ->
  fst (getEmailFromGitHubUser uTL u1 s) = fst (getEmailFromGitHubUser uTL u2 s).
Proof.
  intros E1 E2 A1 A2 H.
  destruct (getEmailFromGitHubUser_spec uTL u1 s) as [-> _].
  destruct (getEmailFromGitHubUser_spec uTL u2 s) as [-> _].
  rewrite E1, E2. cbn. unfold GoStrings.ToLower. rewrite A1, A2.
  now rewrite (mapBytes_lower_agrees _ _ H).
Qed.

Lemma resolver_ignores_case_of_handle_witness :
  fst (getEmailFromGitHubUser identityLower (Some (mkUser (Some "Bob") None))
         readyState)
  = fst (getEmailFromGitHubUser identityLower (Some (mkUser (Some "bOB") None))
           readyState).
Proof.
  exact (resolver_ignores_case_of_handle identityLower
           (Some (mkUser (Some "Bob") None)) (Some (mkUser (Some "bOB") None))
           readyState eq_refl eq_refl eq_refl eq_refl eq_refl).
Defined.

(** *** Decimal settings *)

Lemma digits_of_uint_acc :
  forall (d : Decimal.uint) (acc : positive),
    Strconv.digits (Z.pos acc) (NilEmpty.string_of_uint d)
    = Some (Z.pos (Pos.of_uint_acc d acc)).
Proof.
  induction d; intros acc; cbn [NilEmpty.string_of_uint Pos.of_uint_acc];
    [reflexivity | ..].
  all: cbn [Strconv.digits];
    match goal with
    | |- context [Strconv.digit ?ch] =>
        let v := eval vm_compute in (Strconv.digit ch) in
        change (Strconv.digit ch) with v
    end; cbv iota beta.
  all: match goal with
       | |- Strconv.digits ?z _ = Some (Z.pos (Pos.of_uint_acc _ ?p)) =>
           replace z with (Z.pos p) by lia
       end; apply IHd.
Qed.

Lemma digits_of_uint :
  forall d : Decimal.uint,
    Strconv.digits 0 (NilEmpty.string_of_uint d)
    = Some (Z.of_N (Pos.of_uint d)).
Proof.
  induction d; cbn [NilEmpty.string_of_uint Pos.of_uint]; [reflexivity | ..].
  all: cbn [Strconv.digits];
    match goal with
    | |- context [Strconv.digit ?ch] =>
        let v := eval vm_compute in (Strconv.digit ch) in
        change (Strconv.digit ch) with v
    end; cbv iota beta.
  all: try (exact IHd).
  all: match goal with
       | |- Strconv.digits ?z _ = Some (Z.of_N (N.pos (Pos.of_uint_acc _ ?p))) =>
           change z with (Z.pos p)
       end; apply digits_of_uint_acc.
Qed.

Lemma Atoi_unsigned (d : Decimal.uint) :
  d <> Decimal.Nil ->
  Z.of_N (Pos.of_uint d) <= Strconv.maxInt ->
  Strconv.Atoi (NilEmpty.string_of_uint d) = Some (Z.of_N (Pos.of_uint d)).
Proof.
  intros Hd Hmax. pose proof (digits_of_uint d) as H.
  assert (Hr : (Strconv.minInt <=? Z.of_N (Pos.of_uint d))
               && (Z.of_N (Pos.of_uint d) <=? Strconv.maxInt) = true).
  { apply andb_true_iff. split; apply Z.leb_le; [ | exact Hmax].
    unfold Strconv.minInt. lia. }
  destruct d; [contradiction | ..];
    cbn [NilEmpty.string_of_uint] in *; unfold Strconv.Atoi;
    match goal with
    | |- context [Ascii.eqb ?ch "-"] =>
        change (Ascii.eqb ch "-") with false;
        change (Ascii.eqb ch "+") with false
    end; cbn [orb]; rewrite H, Hr; reflexivity.
Qed.

Lemma Atoi_negated (d : Decimal.uint) :
  d <> Decimal.Nil ->
  Strconv.minInt <= - Z.of_N (Pos.of_uint d) ->
  Strconv.Atoi (String "-" (NilEmpty.string_of_uint d))
  = Some (- Z.of_N (Pos.of_uint d)).
Proof.
  intros Hd Hmin. pose proof (digits_of_uint d) as H.
  assert (Hr : (Strconv.minInt <=? - Z.of_N (Pos.of_uint d))
               && (- Z.of_N (Pos.of_uint d) <=? Strconv.maxInt) = true).
  { apply andb_true_iff. split; apply Z.leb_le; [exact Hmin | ].
    unfold Strconv.maxInt. lia. }
  unfold Strconv.Atoi. change (Ascii.eqb "-" "-") with true. cbn [orb].
  rewrite H, Hr. destruct d; [contradiction | ..]; reflexivity.
Qed.

(** [Atoi] reads back what [%d] prints. *)
Lemma Atoi_fmtd (n : Z) :
  Strconv.minInt <= n <= Strconv.maxInt ->
  Strconv.Atoi (fmtd n) = Some n /\ fmtd n <> "".
Proof.
  intros [Hmin Hmax]. unfold fmtd. destruct n as [ | p | p].
  - split; [reflexivity | discriminate].
  - cbn [Z.to_int NilZero.string_of_int]. unfold NilZero.string_of_uint.
    pose proof (Unsigned.to_uint_nonnil p) as Hnil.
    pose proof (Unsigned.of_to p) as Hval.
    pose proof (Atoi_unsigned (Pos.to_uint p) Hnil) as H.
    rewrite Hval in H. cbn [Z.of_N] in H. specialize (H Hmax).
    destruct (Pos.to_uint p); [contradiction | ..];
      (split; [exact H | discriminate]).
  - cbn [Z.to_int NilZero.string_of_int]. unfold NilZero.string_of_uint.
    pose proof (Unsigned.to_uint_nonnil p) as Hnil.
    pose proof (Unsigned.of_to p) as Hval.
    pose proof (Atoi_negated (Pos.to_uint p) Hnil) as H.
    rewrite Hval in H. cbn [Z.of_N Z.opp] in H. specialize (H Hmin).
    destruct (Pos.to_uint p); [contradiction | ..];
      (split; [exact H | discriminate]).
Qed.

(** X17.  A setting given in the environment as the decimal numeral of an
    integer in the range of [int] is taken over exactly, whatever the
    built-in default; this holds for [DAYS_INACTIVE], [WARNING_PERIOD] and
    [SMTP_PORT] alike, negative values included. *)
Theorem decimal_settings_are_honoured
    (Getenv : string -> string) (name : string) (d n : Z) :
  Strconv.minInt <= n <= Strconv.maxInt ->
  Getenv name = fmtd n ->
  envInt Getenv name d = n.
Proof.
  intros Hn Hv. destruct (Atoi_fmtd n Hn) as [Ha Hne].
  unfold envInt. rewrite Hv, Ha.
  destruct (String.eqb (fmtd n) "") eqn:E; [ | reflexivity].
  apply String.eqb_eq in E. contradiction.
Qed.

Lemma decimal_settings_are_honoured_witness :
  envInt (fun _ => "-45") "SMTP_PORT" 587 = -45.
Proof.
  apply (decimal_settings_are_honoured (fun _ => "-45") "SMTP_PORT" 587 (-45)).
  - unfold Strconv.minInt, Strconv.maxInt. lia.
  - reflexivity.
Defined.

(** *** The fallback domain *)

Lemma forEach_processPR_domain
    (uTL : string -> string) (uEF : string -> string -> bool) (W : World)
    (c : Config) (staleCutoff : GoTime.Time) (prs : list PullRequest) :
  forall s : State,
    fallbackEmailDomain (snd (forEach prs (processPR uTL uEF W c staleCutoff) s))
    = fallbackEmailDomain s.
Proof.
  induction prs as [ | pr prs IH]; intros s; [reflexivity | ].
  rewrite forEach_cons, IH.
  destruct (processPR_chunk uTL uEF W c staleCutoff s pr s eq_refl)
    as (_ & _ & _ & Hd & _).
  exact Hd.
Qed.

Lemma processOpenPRs_domain
    (uTL : string -> string) (uEF : string -> string -> bool) (W : World)
    (c : Config) (prs : list PullRequest) (s : State) :
  fallbackEmailDomain (snd (processOpenPRs uTL uEF W c prs s))
  = fallbackEmailDomain s.
Proof.
  destruct prs as [ | pr prs].
  - reflexivity.
  - rewrite processOpenPRs_cons. cbn [snd].
    now rewrite forEach_processPR_domain.
Qed.

(** From the flag values on, [mainFrom] is [main]. *)
Lemma mainFrom_parsed
    (uTL : string -> string) (uEF : string -> string -> bool) (W : World)
    (fuel : nat) (Getenv : string -> string) (flags : Flags) (s : State) :
  mainFrom uTL uEF W fuel Getenv (Parsed flags) s
  = (Ended (fst (main uTL uEF W fuel Getenv flags s)),
     snd (main uTL uEF W fuel Getenv flags s)).
Proof.
  unfold mainFrom, main, printBanner, bind, Printf, ret.
  destruct (run uTL uEF W fuel _ _). reflexivity.
Qed.

Lemma main_domain
    (uTL : string -> string) (uEF : string -> string -> bool) (W : World)
    (fuel : nat) (Getenv : string -> string) (flags : Flags) (s : State) :
  fallbackEmailDomain (snd (main uTL uEF W fuel Getenv flags s))
  = emailDomain (parseFlags Getenv flags).
Proof.
  rewrite main_after_banner.
  unfold run, setFallbackEmailDomain, testGitHubConnection, usersGet, remote,
    getOpenPRs, bind, Printf, ret.
  crunch.
  destruct (missingParameter (parseFlags Getenv flags)); crunch;
    [reflexivity | ].
  destruct (getGithubClient W _ _); crunch; [reflexivity | ].
  destruct (answer W (calls s) UsersGet); crunch; [reflexivity | ].
  match goal with
  | |- context [getOpenPRsFrom W fuel ?ow ?rp ?p ?a ?s0] =>
      destruct (getOpenPRsFrom_ops W ow rp fuel p a s0) as (new & _ & _ & Hd);
      destruct (getOpenPRsFrom W fuel ow rp p a s0) as [fetched s1]
  end.
  cbn [fst snd fallbackEmailDomain] in *.
  destruct fetched as [[msg | openPRs] | ]; crunch; try exact Hd.
  now rewrite processOpenPRs_domain.
Qed.

(** X18.  The fallback domain is written at most once.  When [flag.Parse]
    ends the program (after [-h], a flag that is not defined or a value
    that does not parse), the global variable is never written: it keeps
    the value it had, the empty string of a Go variable at start, and no
    call has been made.  When [flag.Parse] returns, then whatever way
    [main] ends, the variable holds the value of the [email-domain] flag,
    and nothing that runs after the assignment changes it.  Without the
    flag that value is [EMAIL_DOMAIN], or [example.com] when the variable
    is unset or empty; it is the empty string only when the flag is given
    as the empty string, which the sanity check lets pass. *)
Theorem fallback_domain_is_written_once
    (uTL : string -> string) (uEF : string -> string -> bool) (W : World)
    (fuel : nat) (Getenv : string -> string) (p : Parse) (s : State) :
  let r := mainFrom uTL uEF W fuel Getenv p s in
  match p with
  | Exited status =>
      fst r = OsExit status
      /\ fallbackEmailDomain (snd r) = fallbackEmailDomain s
      /\ calls (snd r) = calls s
      /\ fallbackEmailDomain
           (snd (mainFrom uTL uEF W fuel Getenv p initialState)) = ""
  | Parsed flags =>
      let c := parseFlags Getenv flags in
      (exists e, fst r = Ended e)
      /\ fallbackEmailDomain (snd r) = emailDomain c
      /\ (flagEmailDomain flags = None ->
          emailDomain c = (if String.eqb (Getenv "EMAIL_DOMAIN") ""
                           then "example.com" else Getenv "EMAIL_DOMAIN"))
      /\ (emailDomain c = "" <-> flagEmailDomain flags = Some "")
      /\ (forall d, missingParameter
                      (mkConfig (githubToken c) (githubBaseURL c) (owner c)
                                (repo c) (daysInactive c) (warningPeriod c)
                                (smtpServer c) (smtpPort c) (smtpUser c)
                                (smtpPassword c) d)
                    = missingParameter c)
  end.
Proof.
  cbv zeta. destruct p as [flags | status].
  - rewrite mainFrom_parsed. cbn [fst snd].
    split; [eexists; reflexivity | ].
    split; [apply main_domain | ].
    split; [ | split].
    + intros Hf. unfold parseFlags, flagOr, defaultEmailDomain. cbn.
      now rewrite Hf.
    + unfold parseFlags, flagOr, defaultEmailDomain. cbn.
      destruct (flagEmailDomain flags) as [d | ].
      * split; [intros ->; reflexivity | intros H; now injection H].
      * split; [ | discriminate].
        destruct (String.eqb (Getenv "EMAIL_DOMAIN") "") eqn:E;
          [discriminate | ].
        intros H. rewrite H in E. discriminate E.
    + intros d. reflexivity.
  - repeat split; reflexivity.
Qed.

(** *** A whole run *)

Lemma chunkShape_by_domain
    (uTL : string -> string) (uEF : string -> string -> bool) (c : Config)
    (staleCutoff : GoTime.Time) (s0 s1 : State) (pr : PullRequest)
    (chunk : list Call) :
  fallbackEmailDomain s0 = fallbackEmailDomain s1 ->
  chunkShape uTL uEF c staleCutoff s0 pr chunk ->
  chunkShape uTL uEF c staleCutoff s1 pr chunk.
Proof.
  intros Hd. unfold chunkShape.
  now rewrite (recipient_by_domain uTL pr s0 s1 Hd).
Qed.

(** X19.  A run end to end.  With a configuration that passes the sanity
    check, a base URL that parses, a connection test and listings that
    succeed, and a host that serves a chain of pages, [main] returns
    normally whatever happens to the other calls.  Its calls are the
    connection test, one listing for each page, and then, for the pull
    requests of all pages in order, the calls each of them causes, judged
    against one cutoff and resolved with the configured fallback domain. *)
Theorem run_end_to_end
    (uTL : string -> string) (uEF : string -> string -> bool) (W : World)
    (fuel : nat) (c : Config) (s : State)
    (pages : Z -> list PullRequest * Z) (first : list PullRequest)
    (chain : list (Z * list PullRequest)) :
  missingParameter c = false ->
  urlParse W (githubBaseURL c) = None ->
  urlParse W (githubBaseURL c ++ "upload/")%string = None ->
  (forall h, answer W h UsersGet = None) ->
  (forall h p, answer W h (PullRequestsList (owner c) (repo c) p 100) = None) ->
  (forall h p, listedPage W h p = pages p) ->
  linked pages ((0, first) :: chain) ->
  (List.length chain < fuel)%nat ->
  let r := run uTL uEF W fuel c s in
  let openPRs := List.concat (map snd ((0, first) :: chain)) in
  let staleCutoff :=
    staleCutoffAt (wallClock W (clockReads s)) (daysInactive c) in
  fst r = Returned
  /\ exists chunks,
       callsSince s (snd r)
       = mkCall UsersGet None
         :: listingCalls (owner c) (repo c) ((0, first) :: chain)
         ++ List.concat chunks
       /\ Forall2 (chunkShape uTL uEF c staleCutoff
                              (mkState (emailDomain c) [] [] 0))
                  openPRs chunks.
Proof.
  intros Hok Hbase Hupload Huser Hlist Hpages Hlinked Hfuel. cbv zeta.
  unfold run, setFallbackEmailDomain, testGitHubConnection, usersGet, remote,
    getGithubClient, getOpenPRs, bind, Printf, ret.
  crunch. rewrite Hok, Hbase, Hupload. crunch. rewrite Huser. crunch.
  match goal with
  | |- context [getOpenPRsFrom W fuel ?ow ?rp ?p ?a ?s0] =>
      destruct (getOpenPRsFrom_chain W ow rp pages Hpages Hlist chain fuel a s0
                  p first Hlinked Hfuel) as (Hr & Hc & Hk);
      destruct (getOpenPRsFrom_ops W ow rp fuel p a s0) as (new & _ & _ & Hd);
      destruct (getOpenPRsFrom W fuel ow rp p a s0) as [fetched s1]
  end.
  cbv zeta in *. cbn [fst snd calls clockReads fallbackEmailDomain app] in *.
  subst fetched.
  destruct (processOpenPRs_effects uTL uEF W c
              (List.concat (map snd ((0, first) :: chain))) s1) as (Hret & _).
  destruct (processOpenPRs_chunks uTL uEF W c
              (List.concat (map snd ((0, first) :: chain))) s1)
    as (chunks & Hcs & Hshapes & _).
  split; [exact Hret | ].
  exists chunks. split.
  - apply callsSince_app. rewrite Hcs, Hc, <- !app_assoc. reflexivity.
  - rewrite Hk in Hshapes.
    eapply Forall2_impl; [ | exact Hshapes].
    intros pr chunk. apply chunkShape_by_domain. exact Hd.
Qed.

(** Three pages with #12 (stale), #19 (stale and warned) and #13 (active
    and warned), every call succeeding. *)
Lemma run_end_to_end_witness :
  let W := pagedWorld june1
             (threePages [samplePR 12 april1 []]
                [samplePR 19 april1 ["stale-warning"]]
                [samplePR 13 may30 ["stale-warning"]]) in
  let r := run identityLower neverFold W 3 (sampleConfig 30 7) readyState in
  fst r = Returned
  /\ exists chunks,
       callsSince readyState (snd r)
       = mkCall UsersGet None
         :: listingCalls "octo" "hello"
              [(0, [samplePR 12 april1 []]);
               (2, [samplePR 19 april1 ["stale-warning"]]);
               (3, [samplePR 13 may30 ["stale-warning"]])]
         ++ List.concat chunks
       /\ Forall2 (chunkShape identityLower neverFold (sampleConfig 30 7)
                     (staleCutoffAt june1 30) (mkState "example.com" [] [] 0))
                  [samplePR 12 april1 []; samplePR 19 april1 ["stale-warning"];
                   samplePR 13 may30 ["stale-warning"]]
                  chunks.
Proof.
  cbv zeta.
  apply (run_end_to_end identityLower neverFold
           (pagedWorld june1
              (threePages [samplePR 12 april1 []]
                 [samplePR 19 april1 ["stale-warning"]]
                 [samplePR 13 may30 ["stale-warning"]]))
           3 (sampleConfig 30 7) readyState
           (threePages [samplePR 12 april1 []]
              [samplePR 19 april1 ["stale-warning"]]
              [samplePR 13 may30 ["stale-warning"]])
           [samplePR 12 april1 []]
           [(2, [samplePR 19 april1 ["stale-warning"]]);
            (3, [samplePR 13 may30 ["stale-warning"]])]);
    try reflexivity.
  - cbn. repeat split; discriminate.
  - cbn. lia.
Defined.

(** *** A pull request without a timestamp *)

(** X20.  A pull request whose [updated_at] is missing reads as last
    updated at Go's zero time.  With thresholds of at most [maxDays] days
    and a clock later than that many days after the zero time, it is judged
    stale and, unless it is opted out, acted on at once: warned when it
    does not carry the warning label, closed when it does. *)
Theorem missing_timestamp_reads_as_oldest
    (uTL : string -> string) (uEF : string -> string -> bool) (W : World)
    (c : Config) (now : GoTime.Time) (pr : PullRequest) (s : State) :
  UpdatedAt pr = None ->
  hasLabel uEF pr "do not stale" = false ->
  missingParameter c = false ->
  daysInactive c <= maxDays ->
  warningPeriod c <= maxDays ->
  maxDays * day < now ->
  maxDays * day < wallClock W (clockReads s) ->
  let staleCutoff := staleCutoffAt now (daysInactive c) in
  let s' := snd (processPR uTL uEF W c staleCutoff pr s) in
  let close := PullRequestsEdit (owner c) (repo c) (GetNumber pr) "closed" in
  let warning :=
    SendEmail (recipient uTL pr s) (warningSubject pr) (warningBody pr)
              (smtpServer c) (smtpPort c) (smtpUser c) (smtpPassword c) in
  GoTime.Before (GetUpdatedAt pr) staleCutoff = true
  /\ exists t rest,
       calls s' = calls s
                  ++ mkCall (if hasLabel uEF pr "stale-warning"
                             then close else warning) t :: rest.
Proof.
  intros Hnil Hopt Hok Hd Hw Hnow Hclock. cbv zeta.
  destruct (missingParameter_false c Hok) as [Hd0 Hw0].
  assert (Hzero : GetUpdatedAt pr = 0) by (unfold GetUpdatedAt; now rewrite Hnil).
  assert (Hstale : GoTime.Before (GetUpdatedAt pr)
                     (staleCutoffAt now (daysInactive c)) = true).
  { rewrite staleCutoffAt_exact by lia. rewrite Hzero.
    apply Z.ltb_lt. unfold maxDays, day in *. lia. }
  split; [exact Hstale | ].
  destruct (hasLabel uEF pr "stale-warning") eqn:Hwarn.
  - pose proof (processPR_stale_warned uTL uEF W c _ pr s Hopt Hstale Hwarn) as H.
    cbv zeta in H.
    assert (Hlate : (GoTime.daysDuration (warningPeriod c)
                     <? GoTime.Sub (wallClock W (clockReads s)) (GetUpdatedAt pr))
                    = true).
    { rewrite daysDuration_exact by lia. rewrite Hzero. apply Z.ltb_lt.
      unfold GoTime.Sub, GoTime.maxDuration, GoTime.minDuration.
      unfold maxDays, day in *.
      repeat match goal with
             | |- context [?a <? ?b] => destruct (Z.ltb_spec a b)
             end; lia. }
    rewrite Hlate in H.
    destruct (answer W (calls s) _); rewrite H; do 2 eexists; reflexivity.
  - destruct (processPR_chunk uTL uEF W c (staleCutoffAt now (daysInactive c))
                s pr s eq_refl) as (chunk & Hc & Hshape & _).
    unfold chunkShape in Hshape. rewrite Hopt, Hstale, Hwarn in Hshape.
    cbn [orb negb] in Hshape.
    destruct Hshape as [[e ->] | [t ->]]; rewrite Hc; do 2 eexists; reflexivity.
Qed.

Lemma missing_timestamp_reads_as_oldest_witness :
  let pr := mkPR (Some 21) (Some "Old") None (Some bob) [] None in
  GoTime.Before (GetUpdatedAt pr) (staleCutoffAt june1 30) = true
  /\ exists t rest,
       calls (snd (processPR identityLower neverFold (calmWorld june1)
                             (sampleConfig 30 7) (staleCutoffAt june1 30) pr
                             readyState))
       = [] ++ mkCall (SendEmail "bob@example.com" (warningSubject pr)
                                 (warningBody pr) "smtp.example.com" 587
                                 "bot@example.com" "secret") t :: rest.
Proof.
  cbv zeta.
  apply (missing_timestamp_reads_as_oldest identityLower neverFold
           (calmWorld june1) (sampleConfig 30 7) june1
           (mkPR (Some 21) (Some "Old") None (Some bob) [] None) readyState);
    try reflexivity; vm_compute; discriminate.
Defined.

(** *** The warning and the dialogue behind it *)

Lemma processPR_stale_unwarned
    (uTL : string -> string) (uEF : string -> string -> bool) (W : World)
    (c : Config) (staleCutoff : GoTime.Time) (pr : PullRequest) (s : State) :
  hasLabel uEF pr "do not stale" = false ->
  GoTime.Before (GetUpdatedAt pr) staleCutoff = true ->
  hasLabel uEF pr "stale-warning" = false ->
  let s' := snd (processPR uTL uEF W c staleCutoff pr s) in
  let warning :=
    SendEmail (recipient uTL pr s) (warningSubject pr) (warningBody pr)
              (smtpServer c) (smtpPort c) (smtpUser c) (smtpPassword c) in
  let add :=
    IssuesAddLabels (owner c) (repo c) (GetNumber pr) ["stale-warning"] in
  calls s' =
    calls s ++
    match answer W (calls s) warning with
    | Some e => [mkCall warning (Some e)]
    | None =>
        [mkCall warning None;
         mkCall add (answer W (calls s ++ [mkCall warning None]) add)]
    end.
Proof.
  intros Hopt Hstale Hwarn. cbv zeta.
  unfold recipient. run_body. rewrite Hopt, Hstale, Hwarn. crunch.
  destruct (String.eqb (GetEmail (GetUser pr)) "") eqn:E; cbn [negb fst snd];
    crunch; rewrite ?E, ?synthesized_address_not_empty; crunch.
  all: match goal with
       | |- context [match answer ?w ?h ?o with _ => _ end] =>
           destruct (answer w h o) eqn:?; crunch
       end; [reflexivity | ].
  all: match goal with
       | |- context [match answer ?w ?h ?o with _ => _ end] =>
           destruct (answer w h o) eqn:?; crunch
       end; rewrite <- app_assoc; reflexivity.
Qed.

(** X21.  With the mail handled by a server [srv]: a stale pull request
    that is not opted out and not yet warned gets the [stale-warning] label
    added exactly when no step of the body of the SMTP dialogue failed.  A
    failure of the deferred [Quit] or of closing the connection does not
    keep the label from being added; any other failure does, and the
    author is warned again on the next run. *)
Theorem label_follows_the_dialogue
    (uTL : string -> string) (uEF : string -> string -> bool) (W : World)
    (srv : Smtp.Server) (c : Config) (staleCutoff : GoTime.Time)
    (pr : PullRequest) (s : State) :
  mailedBy srv W ->
  hasLabel uEF pr "do not stale" = false ->
  GoTime.Before (GetUpdatedAt pr) staleCutoff = true ->
  hasLabel uEF pr "stale-warning" = false ->
  let s' := snd (processPR uTL uEF W c staleCutoff pr s) in
  let add :=
    IssuesAddLabels (owner c) (repo c) (GetNumber pr) ["stale-warning"] in
  let dialogue :=
    Smtp.sendEmail srv (recipient uTL pr s) (warningSubject pr) (warningBody pr)
                   (smtpServer c) (smtpPort c) (smtpUser c) (smtpPassword c)
                   Smtp.freshSession in
  In add (map callOp (callsSince s s'))
  <-> (forall ev, In ev (Smtp.log (snd dialogue)) ->
                  Smtp.isDeferred (fst ev) = false -> snd ev = None).
Proof.
  intros Hmail Hopt Hstale Hwarn. cbv zeta.
  pose proof (processPR_stale_unwarned uTL uEF W c staleCutoff pr s
                Hopt Hstale Hwarn) as Hc.
  cbv zeta in Hc. rewrite Hmail in Hc.
  destruct (sendEmail_result_reflects_body srv (recipient uTL pr s)
              (warningSubject pr) (warningBody pr) (smtpServer c) (smtpPort c)
              (smtpUser c) (smtpPassword c) Smtp.freshSession)
    as (new & Hlog & Hiff).
  cbn [Smtp.log Smtp.freshSession app] in Hlog. rewrite Hlog.
  rewrite <- Hiff.
  destruct (fst (Smtp.sendEmail srv _ _ _ _ _ _ _ _)) as [e | ].
  - rewrite (callsSince_app _ _ _ Hc). cbn.
    split; [intros [H | []]; discriminate H | discriminate].
  - rewrite (callsSince_app _ _ _ Hc). cbn.
    split; [reflexivity | intros _; right; left; reflexivity].
Qed.

(** The server that refuses the recipient: the warning fails and no label
    is added. *)
Lemma label_follows_the_dialogue_witness :
  let pr := samplePR 12 april1 [] in
  let s' := snd (processPR identityLower neverFold
                           (mailWorld june1 Smtp.pickyServer)
                           (sampleConfig 30 7) (staleCutoffAt june1 30) pr
                           readyState) in
  In (IssuesAddLabels "octo" "hello" 12 ["stale-warning"])
     (map callOp (callsSince readyState s'))
  <-> (forall ev,
          In ev (Smtp.log (snd (Smtp.sendEmail Smtp.pickyServer "bob@example.com"
                                  (warningSubject pr) (warningBody pr)
                                  "smtp.example.com" 587 "bot@example.com"
                                  "secret" Smtp.freshSession))) ->
          Smtp.isDeferred (fst ev) = false -> snd ev = None).
Proof.
  cbv zeta.
  apply (label_follows_the_dialogue identityLower neverFold
           (mailWorld june1 Smtp.pickyServer) Smtp.pickyServer
           (sampleConfig 30 7) (staleCutoffAt june1 30)
           (samplePR 12 april1 []) readyState);
    try reflexivity.
  intros h toEmail subject body server port user password. reflexivity.
Defined.
